(** * A shallow embedding of the cooking-recipes agent

    Sources: [recipes.py] (domain model and [SpoonacularRecipeProvider]) and
    [agent.py] ([Agent.parse_user_message_with_retries], [Agent.__run],
    [Agent.run]).  JSON values are the values [json.loads] and
    [response.json()] produce; Python exceptions are an inductive type and
    fallible code returns [pyres]. *)

From Stdlib Require Import ZArith.
From stdpp Require Import base list strings pretty.

Open Scope string_scope.
#[local] Set Warnings "-register-all".

(** ** JSON values as Python sees them *)

Inductive json : Type :=
| JNull
| JBool (b : bool)
| JNum (z : Z)
| JStr (s : string)
| JArr (l : list json)
| JObj (kvs : list (string * json)).

(** Python exceptions raised by the modelled code. [ResponseJSONError] is the
    error of [response.json()] on a body that is not JSON; [ApiError] is the
    [Exception] of [fetch_recipes] with its formatted message. *)
Inductive exn : Type :=
| KeyError
| IndexError
| AttributeError
| TypeError
| JSONDecodeError
| ResponseJSONError
| TransportError
| ApiError (msg : string).

Inductive pyres (A : Type) : Type :=
| POk (a : A)
| PErr (e : exn).
Arguments POk {A} a.
Arguments PErr {A} e.

(** [except json.decoder.JSONDecodeError] also catches the error of
    [response.json()]: [requests.exceptions.JSONDecodeError] is a subclass. *)
Definition is_json_decode_error (e : exn) : bool :=
  match e with JSONDecodeError | ResponseJSONError => true | _ => false end.

Definition pbind {A B} (m : pyres A) (k : A -> pyres B) : pyres B :=
  match m with POk a => k a | PErr e => PErr e end.

Notation "x <-? m ;; k" := (pbind m (fun x => k))
  (at level 100, m at next level, right associativity).

Fixpoint pmap {A B} (f : A -> pyres B) (l : list A) : pyres (list B) :=
  match l with
  | [] => POk []
  | x :: xs => y <-? f x ;; ys <-? pmap f xs ;; POk (y :: ys)
  end.

(** ** Python operations on JSON values *)

(** A dict built by [json.loads] keeps the last value of a duplicated key. *)
Definition dict_lookup (k : string) (kvs : list (string * json)) : option json :=
  fold_left (fun acc kv => if String.eqb k kv.1 then Some kv.2 else acc) kvs None.

(** Iterating a dict yields its distinct keys in first-insertion order. *)
Definition dict_keys (kvs : list (string * json)) : list string :=
  fold_left (fun acc kv => if existsb (String.eqb kv.1) acc then acc else app acc [kv.1])
    kvs [].

(** [d.get(k, default)]: only dicts have [get]. *)
Definition py_get (d : json) (k : string) (default : json) : pyres json :=
  match d with
  | JObj kvs => POk (match dict_lookup k kvs with Some v => v | None => default end)
  | _ => PErr AttributeError
  end.

(** [d[k]] with a string key. *)
Definition py_subscript (d : json) (k : string) : pyres json :=
  match d with
  | JObj kvs => match dict_lookup k kvs with Some v => POk v | None => PErr KeyError end
  | _ => PErr TypeError
  end.

Definition str_chars (s : string) : list json :=
  map (fun c => JStr (String c EmptyString)) (String.list_ascii_of_string s).

(** [x[0]]: a JSON dict has only string keys, so [0] is never one of them. *)
Definition py_index0 (x : json) : pyres json :=
  match x with
  | JArr (h :: _) => POk h
  | JArr [] => PErr IndexError
  | JStr s => match str_chars s with c :: _ => POk c | [] => PErr IndexError end
  | JObj _ => PErr KeyError
  | _ => PErr TypeError
  end.

(** [for e in x]. *)
Definition py_iter (x : json) : pyres (list json) :=
  match x with
  | JArr l => POk l
  | JStr s => POk (str_chars s)
  | JObj kvs => POk (map JStr (dict_keys kvs))
  | _ => PErr TypeError
  end.

Definition as_int (x : json) : option Z :=
  match x with
  | JNum z => Some z
  | JBool b => Some (if b then 1 else 0)%Z
  | _ => None
  end.

(** [a + b]. *)
Definition py_add (a b : json) : pyres json :=
  match a, b with
  | JArr l1, JArr l2 => POk (JArr (app l1 l2))
  | JStr s1, JStr s2 => POk (JStr (s1 ++ s2))
  | _, _ =>
      match as_int a, as_int b with
      | Some x, Some y => POk (JNum (x + y))
      | _, _ => PErr TypeError
      end
  end.

Definition str_elem (e : json) : pyres string :=
  match e with JStr s => POk s | _ => PErr TypeError end.

(** [sep.join(x)]: every element must be a str. *)
Definition py_join (sep : string) (x : json) : pyres string :=
  xs <-? py_iter x ;;
  ss <-? pmap str_elem xs ;;
  POk (String.concat sep ss).

(** Strings are sequences of code points below 256, one [ascii] each.
    [repr] of a str: single quotes unless the text holds a single quote and
    no double quote; the chosen quote and the backslash are escaped, tab,
    newline and carriage return by name, and the other non-printable code
    points (C0 controls, DEL, the C1 controls, NBSP and the soft hyphen) as
    [\xhh]. *)
Definition squote : Ascii.ascii := Ascii.ascii_of_nat 39.
Definition dquote : Ascii.ascii := Ascii.ascii_of_nat 34.
Definition backslash : Ascii.ascii := Ascii.ascii_of_nat 92.

Definition hex_digit (n : nat) : Ascii.ascii :=
  Ascii.ascii_of_nat (if Nat.ltb n 10 then 48 + n else 87 + n)%nat.

Definition latin1_printable (n : nat) : bool :=
  negb (Nat.ltb n 32 || (Nat.leb 127 n && Nat.leb n 160) || Nat.eqb n 173).

Definition repr_char (quote c : Ascii.ascii) : string :=
  let n := Ascii.nat_of_ascii c in
  if Ascii.eqb c quote || Ascii.eqb c backslash then String backslash (String c EmptyString)
  else if Nat.eqb n 9 then String backslash "t"
  else if Nat.eqb n 10 then String backslash "n"
  else if Nat.eqb n 13 then String backslash "r"
  else if latin1_printable n then String c EmptyString
  else String backslash (String (Ascii.ascii_of_nat 120)
         (String (hex_digit (Nat.div n 16)) (String (hex_digit (Nat.modulo n 16)) EmptyString))).

Definition py_str_repr (s : string) : string :=
  let cs := String.list_ascii_of_string s in
  let quote := if existsb (Ascii.eqb squote) cs && negb (existsb (Ascii.eqb dquote) cs)
               then dquote else squote in
  String quote (String.concat EmptyString (map (repr_char quote) cs) ++ String quote EmptyString).

(** The items of the dict [json.loads] builds from a JSON object: distinct
    keys in first-insertion order, each with its last value. *)
Definition assoc_keys {A} (kvs : list (string * A)) : list string :=
  fold_left (fun acc kv => if existsb (String.eqb kv.1) acc then acc else app acc [kv.1])
    kvs [].

Definition assoc_last {A} (k : string) (kvs : list (string * A)) : option A :=
  fold_left (fun acc kv => if String.eqb k kv.1 then Some kv.2 else acc) kvs None.

Definition dict_items {A} (kvs : list (string * A)) : list (string * A) :=
  flat_map (fun k => match assoc_last k kvs with Some v => [(k, v)] | None => [] end)
    (assoc_keys kvs).

(** [repr(x)] of a JSON value (integers only). *)
Fixpoint py_repr (x : json) : string :=
  match x with
  | JNull => "None"
  | JBool b => if b then "True" else "False"
  | JNum z => pretty z
  | JStr s => py_str_repr s
  | JArr l => "[" ++ String.concat ", " (map py_repr l) ++ "]"
  | JObj kvs =>
      "{" ++ String.concat ", "
               (map (fun kv => py_str_repr kv.1 ++ ": " ++ kv.2)
                    (dict_items (map (fun kv => (kv.1, py_repr kv.2)) kvs)))
      ++ "}"
  end.

(** [str(x)] as used in an f-string: a str as is, anything else by its
    [repr]. *)
Definition py_str (x : json) : string :=
  match x with JStr s => s | _ => py_repr x end.

(** ** Domain model ([recipes.py]) *)

Record RecipeIngredient := mkIngredient { ing_title : json; ing_image : json }.
Record RecipeInstruction := mkInstruction { step : json }.
Record Recipe := mkRecipe {
  title : json;
  likes : json;
  image : json;
  ingredients : list RecipeIngredient;
  instructions : list RecipeInstruction
}.

(** [RecipeIngredient.__str__]: the [str] of a two-key dict. *)
Definition ingredient_str (i : RecipeIngredient) : pyres string :=
  POk (py_repr (JObj [("title", ing_title i); ("image", ing_image i)])).

(** [RecipeInstruction.__str__] returns [self.step]; [str()] raises
    [TypeError] when that is not a str. *)
Definition instruction_str (ins : RecipeInstruction) : pyres string :=
  match step ins with JStr s => POk s | _ => PErr TypeError end.

(** [Recipe.__str__]: the two comprehensions, then the [str] of the dict. *)
Definition recipe_str (r : Recipe) : pyres string :=
  ings <-? pmap ingredient_str (ingredients r) ;;
  instrs <-? pmap instruction_str (instructions r) ;;
  POk (py_repr (JObj [("title", title r); ("likes", likes r); ("image", image r);
                      ("ingredients", JArr (map JStr ings));
                      ("instructions", JArr (map JStr instrs))])).

(** ** [SpoonacularRecipeProvider.fetch_recipes] *)

Definition API_URL : string := "https://api.spoonacular.com/recipes/complexSearch".

(** The keyword arguments of [fetch_recipes], as the agent passes them. *)
Record FetchArgs := mkFetchArgs {
  query : json;
  include_cuisines : json;
  exclude_cuisines : json;
  include_ingredients : json;
  exclude_ingredients : json;
  max_amount : Z
}.

(** The query parameters handed to [requests.get]. *)
Definition params := list (string * json).

Definition fetch_params (API_KEY : string) (a : FetchArgs) : pyres params :=
  c <-? py_join "," (include_cuisines a) ;;
  xc <-? py_join "," (exclude_cuisines a) ;;
  ii <-? py_join "," (include_ingredients a) ;;
  xi <-? py_join "," (exclude_ingredients a) ;;
  POk [("query", query a);
       ("cuisine", JStr c);
       ("excludeCuisine", JStr xc);
       ("includeIngredients", JStr ii);
       ("excludeIngredients", JStr xi);
       ("number", JNum (max_amount a));
       ("apiKey", JStr API_KEY);
       ("instructionsRequired", JStr "true");
       ("addRecipeInformation", JStr "true");
       ("addRecipeNutrition", JStr "false");
       ("fillIngredients", JStr "true");
       ("ignorePantry", JStr "true");
       ("sort", JStr "calories");
       ("sortDirection", JStr "desc")].

(** An HTTP response: its status and its body, [None] when the body is not
    JSON (then [response.json()] raises). *)
Record Response := mkResponse { status_code : Z; body : option json }.

Definition response_json (r : Response) : pyres json :=
  match body r with Some j => POk j | None => PErr ResponseJSONError end.

Definition to_ingredient (i : json) : pyres RecipeIngredient :=
  t <-? py_get i "original" JNull ;;
  im <-? py_get i "image" JNull ;;
  POk (mkIngredient t im).

Definition to_instruction (i : json) : pyres RecipeInstruction :=
  s <-? py_get i "step" JNull ;;
  POk (mkInstruction s).

(** One element of the comprehension: the [Recipe(...)] arguments are
    evaluated left to right. *)
Definition to_recipe (r : json) : pyres Recipe :=
  t <-? py_get r "title" JNull ;;
  l <-? py_get r "likes" JNull ;;
  im <-? py_get r "image" JNull ;;
  missed <-? py_subscript r "missedIngredients" ;;
  used <-? py_subscript r "usedIngredients" ;;
  both <-? py_add missed used ;;
  ings <-? py_iter both ;;
  ingrs <-? pmap to_ingredient ings ;;
  groups <-? py_subscript r "analyzedInstructions" ;;
  g0 <-? py_index0 groups ;;
  steps <-? py_subscript g0 "steps" ;;
  sl <-? py_iter steps ;;
  instrs <-? pmap to_instruction sl ;;
  POk (mkRecipe t l im ingrs instrs).

Definition api_error_message (status : Z) (msg : json) : string :=
  "Error fetching recipes: " ++ pretty status ++ " " ++ py_str msg.

(** The [results] array of a JSON response, [[]] when absent. *)
Definition results_of (json_response : json) : pyres (list json) :=
  recipes <-? py_get json_response "results" (JArr []) ;;
  py_iter recipes.

(** What [fetch_recipes] does once [requests.get] has returned. *)
Definition handle_response (response : Response) : pyres (list Recipe) :=
  json_response <-? response_json response ;;
  if Z.eqb (status_code response) 200 then
    rs <-? results_of json_response ;;
    pmap to_recipe rs
  else
    msg <-? py_get json_response "message" (JStr "Unknown error") ;;
    PErr (ApiError (api_error_message (status_code response) msg)).

(** [http] is [requests.get(API_URL, params=...)]; it may raise. *)
Definition fetch_recipes (http : params -> pyres Response) (API_KEY : string)
    (a : FetchArgs) : pyres (list Recipe) :=
  ps <-? fetch_params API_KEY a ;;
  response <-? http ps ;;
  handle_response response.

(** ** The agent ([agent.py]) *)

(** What one [client.completion(...)] call gives: it raises, or it returns a
    text that [json.loads] rejects, or one that decodes to a JSON value. *)
Inductive lm_outcome : Type :=
| LMRaise (e : exn)
| LMMalformed
| LMJson (j : json).

(** Entries of the log channel ([client.add_agent_log]). *)
Inductive log_entry : Type :=
| LogAttempt (n : nat)
| LogCompletion
| LogParsed
| LogFetched (n : nat)
| LogError (e : exn).

(** Observable effects: log entries, replies ([client.add_reply]) and calls
    of the recipe provider. *)
Inductive event : Type :=
| Log (l : log_entry)
| Reply (s : string)
| FetchCall (a : FetchArgs).

Record AgentState := mkAgentState { lm_calls : nat; trace : list event }.

Definition init_state : AgentState := mkAgentState 0 [].

Definition M (A : Type) : Type := AgentState -> pyres A * AgentState.

Definition mret {A} (a : A) : M A := fun s => (POk a, s).

Definition mbind {A B} (m : M A) (k : A -> M B) : M B :=
  fun s => match m s with
           | (POk a, s') => k a s'
           | (PErr e, s') => (PErr e, s')
           end.

Notation "x <- m ;; k" := (mbind m (fun x => k))
  (at level 100, m at next level, right associativity).
Notation "m ;;; k" := (mbind m (fun _ => k))
  (at level 100, right associativity).

Definition mraise {A} (e : exn) : M A := fun s => (PErr e, s).

Definition lift {A} (r : pyres A) : M A := fun s => (r, s).

(** [try: m except e: h e]. *)
Definition catch {A} (m : M A) (h : exn -> M A) : M A :=
  fun s => match m s with
           | (PErr e, s') => h e s'
           | ok => ok
           end.

Definition emit (ev : event) : M unit :=
  fun s => (POk tt, mkAgentState (lm_calls s) (app (trace s) [ev])).

Definition PREPARING : string := "Preparing recipes to match your taste".
Definition NO_RECIPES : string :=
  "Unfortunately, couldn't find any recipes matching your request. Please consider being more specific next time!".
Definition found_message (n : nat) : string := "Found " ++ pretty n ++ " recipes for you".
Definition PARSE_ERROR_REPLY : string := "Please try again".
Definition UNEXPECTED_ERROR_REPLY : string :=
  "Something went wrong, please be patient until developer fixes it".

(** [dict.get] on the value [parse_user_message_with_retries] returned,
    which is [None] when the retry loop falls through. *)
Definition opt_get (p : option json) (k : string) (default : json) : pyres json :=
  match p with Some j => py_get j k default | None => PErr AttributeError end.

(** The keyword arguments [__run] passes to [fetch_recipes], evaluated in
    the order of the call. *)
Definition agent_fetch_args (p : option json) : pyres FetchArgs :=
  q <-? opt_get p "query" (JStr "") ;;
  ii <-? opt_get p "include_ingredients" (JArr []) ;;
  xi <-? opt_get p "exclude_ingredients" (JArr []) ;;
  ic <-? opt_get p "include_cuisines" (JArr []) ;;
  xc <-? opt_get p "exclude_cuisines" (JArr []) ;;
  POk (mkFetchArgs q ic xc ii xi 5).

Section Agent.

(** [lm k]: the outcome of the [k]-th completion call on the (fixed) system
    prompt and user message; [provider] is [RecipeProvider.fetch_recipes];
    [formatter] is [RecipeFormatter.transform_to_text], a pure total
    function. *)
Variable lm : nat -> lm_outcome.
Variable provider : FetchArgs -> pyres (list Recipe).
Variable formatter : Recipe -> string.

Definition completion : M lm_outcome :=
  fun s => (POk (lm (lm_calls s)), mkAgentState (S (lm_calls s)) (trace s)).

Definition parse_user_message : M json :=
  c <- completion ;;
  match c with
  | LMRaise e => mraise e
  | LMMalformed => emit (Log LogCompletion) ;;; mraise JSONDecodeError
  | LMJson j => emit (Log LogCompletion) ;;; mret j
  end.

(** [for attempt in range(3)]: [n] iterations are left. *)
Fixpoint retry_loop (attempts : Z) (n attempt : nat) : M (option json) :=
  match n with
  | O => mret None
  | S n' =>
      emit (Log (LogAttempt (S attempt))) ;;;
      catch (j <- parse_user_message ;; mret (Some j))
        (fun e => if is_json_decode_error e then
                    if Z.ltb (Z.of_nat attempt) (attempts - 1)
                    then retry_loop attempts n' (S attempt)
                    else mraise e
                  else mraise e)
  end.

Definition parse_user_message_with_retries (attempts : Z) : M (option json) :=
  retry_loop attempts 3 0.

Fixpoint reply_each (rs : list Recipe) : M unit :=
  match rs with
  | [] => mret tt
  | r :: rs' => emit (Reply (formatter r)) ;;; reply_each rs'
  end.

Definition call_provider (a : FetchArgs) : M (list Recipe) :=
  emit (FetchCall a) ;;; lift (provider a).

(** [Agent.__run]. *)
Definition run_inner : M unit :=
  parsed_params <- parse_user_message_with_retries 3 ;;
  emit (Log LogParsed) ;;;
  message <- lift (opt_get parsed_params "message" JNull) ;;
  match message with
  | JStr m => emit (Reply m)
  | _ =>
      emit (Reply PREPARING) ;;;
      a <- lift (agent_fetch_args parsed_params) ;;
      recipes <- call_provider a ;;
      _ <- lift (pmap recipe_str recipes) ;;
      emit (Log (LogFetched (length recipes))) ;;;
      match recipes with
      | [] => emit (Reply NO_RECIPES)
      | _ => emit (Reply (found_message (length recipes))) ;;; reply_each recipes
      end
  end.

Definition error_reply (e : exn) : string :=
  if is_json_decode_error e then PARSE_ERROR_REPLY else UNEXPECTED_ERROR_REPLY.

(** [Agent.run]: both handlers log the error and reply once. *)
Definition run : M unit :=
  catch run_inner (fun e => emit (Log (LogError e)) ;;; emit (Reply (error_reply e))).

End Agent.

Fixpoint replies (evs : list event) : list string :=
  match evs with
  | [] => []
  | Reply s :: evs' => s :: replies evs'
  | _ :: evs' => replies evs'
  end.

Fixpoint fetch_calls (evs : list event) : nat :=
  match evs with
  | [] => 0
  | FetchCall _ :: evs' => S (fetch_calls evs')
  | _ :: evs' => fetch_calls evs'
  end.

(** ** [MarkdownRecipeFormatter.transform_to_text] ([formatters.py]) *)

Definition nl_char : Ascii.ascii := Ascii.Ascii false true false true false false false false.
Definition NL : string := String nl_char EmptyString.

Definition md_ingredient_row (i : RecipeIngredient) : string :=
  "| " ++ py_str (ing_title i) ++ " | ![" ++ py_str (ing_title i) ++ "](" ++
  py_str (ing_image i) ++ ") |".

(** [f"{idx + 1}. {instruction.step}"] for [enumerate]. *)
Definition md_step_line (idx : nat) (ins : RecipeInstruction) : string :=
  pretty (S idx) ++ ". " ++ py_str (step ins).

Definition md_ingredient_bulletpoints (r : Recipe) : string :=
  String.concat NL (map md_ingredient_row (ingredients r)).

Definition md_instruction_steps (r : Recipe) : string :=
  String.concat NL (imap md_step_line (instructions r)).

Definition md_ingredient_table (r : Recipe) : string :=
  NL ++ "| Ingredient | Image |" ++ NL ++ "|------------|-------|" ++ NL ++
  md_ingredient_bulletpoints r ++ NL.

Definition markdown_transform_to_text (r : Recipe) : string :=
  NL ++ "### " ++ py_str (title r) ++ NL ++ NL ++
  "Likes: " ++ py_str (likes r) ++ NL ++ NL ++
  "![Recipe Image](" ++ py_str (image r) ++ ")" ++ NL ++ NL ++
  "##### Ingredients" ++ NL ++ md_ingredient_table r ++ NL ++ NL ++
  "##### Steps" ++ NL ++ md_instruction_steps r ++ NL.

(** [s.split("\n")]. *)
Fixpoint split_lines (s : string) : list string :=
  match s with
  | EmptyString => [EmptyString]
  | String c s' =>
      if Ascii.eqb c nl_char then EmptyString :: split_lines s'
      else match split_lines s' with
           | h :: t => String c h :: t
           | [] => [String c EmptyString]
           end
  end.

Definition has_no_newline (s : string) : Prop :=
  ~ In nl_char (String.list_ascii_of_string s).

(** ** [main] ([agent.py]) *)

Inductive main_outcome : Type :=
| RequestUserInput
| ConfigError (log reply : string)
| AgentRan (st : AgentState).

Definition ENV_MISSING_LOG : string := "Env variable SPOONACULAR_API_KEY is missing".
Definition ENV_MISSING_REPLY : string :=
  "Environment configuration isn't complete, please be patient until the developer fixes it".

(** [message] is [client.get_last_message()], [api_key] is
    [os.environ.get("SPOONACULAR_API_KEY", None)]; [lm] answers the
    completions of this message.  The agent gets a
    [SpoonacularRecipeProvider(api_key)] and a [MarkdownRecipeFormatter]. *)
Definition main (http : params -> pyres Response) (lm : nat -> lm_outcome)
    (message : option json) (api_key : option string) : pyres main_outcome :=
  match message with
  | None => POk RequestUserInput
  | Some m =>
      role <-? py_subscript m "role" ;;
      match role with
      | JStr r =>
          if String.eqb r "user" then
            match api_key with
            | None => POk (ConfigError ENV_MISSING_LOG ENV_MISSING_REPLY)
            | Some k =>
                POk (AgentRan (snd (run lm (fetch_recipes http k) markdown_transform_to_text
                                        init_state)))
            end
          else POk RequestUserInput
      | _ => POk RequestUserInput
      end
  end.

(** The attempt numbers logged by the retry loop, in order. *)
Fixpoint attempt_logs (evs : list event) : list nat :=
  match evs with
  | [] => []
  | Log (LogAttempt n) :: evs' => n :: attempt_logs evs'
  | _ :: evs' => attempt_logs evs'
  end.

(** A filter value [",".join] rejects with [TypeError]. *)
Definition bad_filter (f : json) : Prop :=
  f = JNull \/ (exists b, f = JBool b) \/ (exists z, f = JNum z) \/
  (exists l, f = JArr l /\ Exists (fun e => forall s, e <> JStr s) l).

(** ** Specification predicates and proof tactics *)

(** Unfolds the monadic plumbing of the agent and reduces. *)
Ltac agent_simpl :=
  cbv beta iota zeta delta [parse_user_message_with_retries retry_loop mbind mret
    mraise emit catch lift completion parse_user_message init_state run run_inner
    call_provider];
  simpl.

Definition args_pasta : FetchArgs :=
  mkFetchArgs (JStr "pasta") (JArr []) (JArr []) (JArr [JStr "egg"; JStr "milk"]) (JArr []) 5.

Definition is_obj (j : json) : Prop := exists kvs, j = JObj kvs.

(** What the comprehension builds from one result [j]: the ingredients of
    [missedIngredients] then those of [usedIngredients], and the [step]s of
    the first group of [analyzedInstructions]; the other groups are
    unconstrained. *)
Definition recipe_normalized (j : json) (r : Recipe) : Prop :=
  exists missed used ml ul im iu g0 rest steps sl,
    py_get j "title" JNull = POk (title r) /\
    py_get j "likes" JNull = POk (likes r) /\
    py_get j "image" JNull = POk (image r) /\
    py_subscript j "missedIngredients" = POk missed /\
    py_subscript j "usedIngredients" = POk used /\
    py_iter missed = POk ml /\ py_iter used = POk ul /\
    pmap to_ingredient ml = POk im /\ pmap to_ingredient ul = POk iu /\
    ingredients r = app im iu /\
    py_subscript j "analyzedInstructions" = POk (JArr (g0 :: rest)) /\
    py_subscript g0 "steps" = POk steps /\ py_iter steps = POk sl /\
    pmap to_instruction sl = POk (instructions r).

(** A result with the keys the comprehension indexes, holding lists of
    objects, and a first instruction group with a [steps] list. *)
Definition well_shaped (j : json) : Prop :=
  exists kvs ml ul gk rest sl,
    j = JObj kvs /\
    dict_lookup "missedIngredients" kvs = Some (JArr ml) /\ Forall is_obj ml /\
    dict_lookup "usedIngredients" kvs = Some (JArr ul) /\ Forall is_obj ul /\
    dict_lookup "analyzedInstructions" kvs = Some (JArr (JObj gk :: rest)) /\
    dict_lookup "steps" gk = Some (JArr sl) /\ Forall is_obj sl.

Ltac pinv :=
  repeat match goal with
  | H : pbind ?m _ = POk _ |- _ =>
      let E := fresh "E" in destruct m eqn:E; simpl in H; [|discriminate H]
  | H : POk _ = POk _ |- _ => injection H as H
  end.

(** A result object lacking one of the indexed keys, or whose
    [analyzedInstructions] is the empty list. *)
Definition lacks_shape (j : json) : Prop :=
  exists kvs, j = JObj kvs /\
    (dict_lookup "missedIngredients" kvs = None \/
     dict_lookup "usedIngredients" kvs = None \/
     dict_lookup "analyzedInstructions" kvs = None \/
     dict_lookup "analyzedInstructions" kvs = Some (JArr [])).

Definition list_field_ok (k : string) (kvs : list (string * json)) : Prop :=
  forall v, dict_lookup k kvs = Some v -> exists l, v = JArr l /\ Forall is_obj l.

(** A result object whose fields, where present, have the expected types. *)
Definition typed_where_present (j : json) : Prop :=
  exists kvs, j = JObj kvs /\
    list_field_ok "missedIngredients" kvs /\ list_field_ok "usedIngredients" kvs /\
    (forall v, dict_lookup "analyzedInstructions" kvs = Some v ->
       v = JArr [] \/ exists gk rest, v = JArr (JObj gk :: rest) /\ list_field_ok "steps" gk).

(** Events that are neither replies nor provider calls. *)
Definition quiet (evs : list event) : Prop := replies evs = [] /\ fetch_calls evs = 0.

(** Unfolds [run] and [__run] down to the parse step, which stays folded. *)
Ltac orch_simpl :=
  cbv beta iota zeta delta [run run_inner mbind mret mraise emit catch lift call_provider];
  simpl.

(** Closes [has_no_newline] of a string literal. *)
Ltac nn_lit :=
  unfold has_no_newline, nl_char; simpl;
  let H := fresh "H" in
  intros H; repeat (destruct H as [H|H]; [discriminate H|]); exact H.

(** Closes [has_no_newline] of a closed string expression. *)
Ltac nn_closed :=
  unfold has_no_newline; vm_compute;
  let H := fresh "H" in
  intros H; repeat (destruct H as [H|H]; [discriminate H|]); exact H.

(** ** Sample inputs *)

Definition lm_retry3 (k : nat) : lm_outcome :=
  match k with
  | 0 | 1 => LMMalformed
  | _ => LMJson (JObj [("query", JStr "pasta")])
  end.

Definition lm_all_malformed (k : nat) : lm_outcome := LMMalformed.

Definition lm_transport (k : nat) : lm_outcome := LMRaise TransportError.

Definition lm_capability (k : nat) : lm_outcome :=
  LMJson (JObj [("message", JStr "I suggest recipes you can cook at home.")]).

Definition parse_state (lm : nat -> lm_outcome) : AgentState :=
  snd (parse_user_message_with_retries lm 3 init_state).

Definition pasta_filters : list (string * json) :=
  [("query", JStr "pasta"); ("include_ingredients", JArr [JStr "egg"; JStr "milk"]);
   ("exclude_ingredients", JArr []); ("include_cuisines", JArr [JStr "Italian"]);
   ("exclude_cuisines", JArr [])].

Definition lm_pasta (k : nat) : lm_outcome := LMJson (JObj pasta_filters).

Definition capability_filters : list (string * json) :=
  [("message", JStr "I suggest recipes you can cook at home.")].

Definition sample_ingredient (name : string) : json :=
  JObj [("original", JStr name); ("image", JStr (name ++ ".png"))].

Definition sample_step (s : string) : json := JObj [("number", JNum 1); ("step", JStr s)].

(** A result with 2 missed and 3 used ingredients and 2 instruction groups. *)
Definition sample_result : json :=
  JObj [("title", JStr "Pancakes"); ("likes", JNum 12); ("image", JStr "p.png");
        ("missedIngredients", JArr [sample_ingredient "flour"; sample_ingredient "sugar"]);
        ("usedIngredients",
          JArr [sample_ingredient "egg"; sample_ingredient "milk"; sample_ingredient "butter"]);
        ("analyzedInstructions",
          JArr [JObj [("name", JStr ""); ("steps", JArr [sample_step "Mix"; sample_step "Fry"])];
                JObj [("name", JStr "Sauce"); ("steps", JArr [sample_step "Stir"])]])].

Definition sample_body : list (string * json) := [("results", JArr [sample_result])].

Definition http_ok (ps : params) : pyres Response := POk (mkResponse 200 (Some (JObj sample_body))).

(** A result without [usedIngredients]. *)
Definition partial_body : list (string * json) :=
  [("results", JArr [JObj [("title", JStr "Soup");
                            ("missedIngredients", JArr [sample_ingredient "leek"])]])].

Definition http_partial (ps : params) : pyres Response :=
  POk (mkResponse 200 (Some (JObj partial_body))).

Definition quota_body : list (string * json) := [("code", JNum 402); ("message", JStr "quota exceeded")].



Definition http_quota (ps : params) : pyres Response :=
  POk (mkResponse 402 (Some (JObj quota_body))).

Definition params_pasta : params :=
  match fetch_params "KEY" args_pasta with POk ps => ps | PErr _ => [] end.

Definition sample_recipes : list Recipe :=
  match fetch_recipes http_ok "KEY" args_pasta with POk rs => rs | PErr _ => [] end.

Definition provider_ok (a : FetchArgs) : pyres (list Recipe) := POk (app sample_recipes sample_recipes).


Definition provider_down (a : FetchArgs) : pyres (list Recipe) :=
  PErr (ApiError (api_error_message 402 (JStr "quota exceeded"))).

Definition title_formatter (r : Recipe) : string := "### " ++ py_str (title r).

Definition pasta_args : FetchArgs :=
  match agent_fetch_args (Some (JObj pasta_filters)) with POk a => a | PErr _ => args_pasta end.

Definition failed_state : AgentState := snd (run_inner lm_pasta provider_down title_formatter init_state).

Definition down_error : exn := ApiError (api_error_message 402 (JStr "quota exceeded")).

Definition provider_empty (a : FetchArgs) : pyres (list Recipe) := POk [].

Definition lm_list (k : nat) : lm_outcome := LMJson (JArr [JStr "pasta"]).

Definition args_null_cuisine : FetchArgs :=
  mkFetchArgs (JStr "pasta") JNull (JArr []) (JArr []) (JArr []) 5.

Definition args_string_ingredients : FetchArgs :=
  mkFetchArgs (JStr "salad") (JArr []) (JArr []) (JStr "egg") (JArr []) 5.

Definition params_string_ingredients : params :=
  match fetch_params "KEY" args_string_ingredients with POk ps => ps | PErr _ => [] end.

Definition user_message : list (string * json) :=
  [("role", JStr "user"); ("content", JStr "pasta without eggs")].
Definition assistant_message : list (string * json) :=
  [("role", JStr "assistant"); ("content", JStr "Found 1 recipes for you")].
Definition roleless_message : list (string * json) := [("content", JStr "pasta")].

Definition pancake_recipe : Recipe :=
  mkRecipe (JStr "Pancakes") (JNum 12) (JStr "https://img.example/pancakes.jpg")
    [mkIngredient (JStr "1 cup flour") (JStr "flour.png");
     mkIngredient (JStr "2 eggs") (JStr "egg.png")]
    [mkInstruction (JStr "Mix the batter."); mkInstruction (JStr "Fry until golden.")].

(** * Properties *)

(** ** Parsing with retries *)

Section Parsing.

Variable lm : nat -> lm_outcome.

(** C2: with [attempts=3], malformed JSON on attempts 1 and 2 and valid JSON
    on attempt 3 gives a successful parse after exactly 3 LM invocations;
    malformed JSON on all 3 attempts makes the JSON decode error propagate
    after exactly 3 invocations, with no 4th. *)
Theorem parse_retries_three_attempts :
  lm 0 = LMMalformed -> lm 1 = LMMalformed ->
  (forall j, lm 2 = LMJson j ->
     exists st, parse_user_message_with_retries lm 3 init_state = (POk (Some j), st)
                /\ lm_calls st = 3) /\
  (lm 2 = LMMalformed ->
     exists st, parse_user_message_with_retries lm 3 init_state = (PErr JSONDecodeError, st)
                /\ lm_calls st = 3).
Proof.
  intros H0 H1. split.
  - intros j H2. agent_simpl. rewrite H0. simpl. rewrite H1. simpl. rewrite H2. simpl.
    eexists; split; reflexivity.
  - intros H2. agent_simpl. rewrite H0. simpl. rewrite H1. simpl. rewrite H2. simpl.
    eexists; split; reflexivity.
Qed.

(** C8: an error other than a JSON decode error on the first attempt (for
    instance a transport failure of the completion call) propagates at once,
    after a single LM invocation, whatever [attempts] is.  An error of the
    [json.decoder.JSONDecodeError] class, requests' subclass included, is a
    JSON decode error. *)
Theorem parse_retries_other_error_no_retry (attempts : Z) (e : exn) :
  lm 0 = LMRaise e -> is_json_decode_error e = false ->
  exists st, parse_user_message_with_retries lm attempts init_state = (PErr e, st)
             /\ lm_calls st = 1.
Proof.
  intros H0 He. agent_simpl. rewrite H0. simpl. rewrite He.
  eexists; split; reflexivity.
Qed.

(** C9: with [attempts] above 3 and malformed JSON at every attempt, the loop
    still stops after [range(3)], i.e. 3 attempts, and falls through to
    [None] instead of raising. *)
Theorem parse_retries_large_attempts_returns_none (attempts : Z) :
  (3 < attempts)%Z ->
  (forall k, k < 3 -> lm k = LMMalformed) ->
  exists st, parse_user_message_with_retries lm attempts init_state = (POk None, st)
             /\ lm_calls st = 3.
Proof.
  intros Ha Hm. agent_simpl.
  rewrite (Hm 0) by lia. simpl.
  replace (Z.of_nat 0 <? attempts - 1)%Z with true by (symmetry; apply Z.ltb_lt; lia).
  simpl. rewrite (Hm 1) by lia. simpl.
  replace (Z.of_nat 1 <? attempts - 1)%Z with true by (symmetry; apply Z.ltb_lt; lia).
  simpl. rewrite (Hm 2) by lia. simpl.
  replace (Z.of_nat 2 <? attempts - 1)%Z with true by (symmetry; apply Z.ltb_lt; lia).
  simpl. eexists; split; reflexivity.
Qed.

End Parsing.

(** ** Request parameters and error responses of [fetch_recipes] *)

Lemma pmap_str_elem_strs (l : list string) : pmap str_elem (map JStr l) = POk l.
Proof. induction l as [|s l IH]; simpl; [reflexivity|]. rewrite IH. reflexivity. Qed.

Lemma py_join_strs (sep : string) (l : list string) :
  py_join sep (JArr (map JStr l)) = POk (String.concat sep l).
Proof.
  unfold py_join, pbind at 1, py_iter. rewrite pmap_str_elem_strs. reflexivity.
Qed.

Lemma fetch_recipes_unfold (http : params -> pyres Response) (API_KEY : string)
    (a : FetchArgs) (ps : params) :
  fetch_params API_KEY a = POk ps ->
  fetch_recipes http API_KEY a = (response <-? http ps ;; handle_response response).
Proof. intros H. unfold fetch_recipes. rewrite H. reflexivity. Qed.

(** C6: each list-valued filter given as a list of strings is sent as the
    comma-joined string of its elements, and that parameter list is the one
    handed to [requests.get]. *)
Theorem fetch_params_comma_joined (API_KEY : string) (q : json)
    (ic xc ii xi : list string) (n : Z) :
  let a := mkFetchArgs q (JArr (map JStr ic)) (JArr (map JStr xc))
             (JArr (map JStr ii)) (JArr (map JStr xi)) n in
  exists ps, fetch_params API_KEY a = POk ps /\
    dict_lookup "cuisine" ps = Some (JStr (String.concat "," ic)) /\
    dict_lookup "excludeCuisine" ps = Some (JStr (String.concat "," xc)) /\
    dict_lookup "includeIngredients" ps = Some (JStr (String.concat "," ii)) /\
    dict_lookup "excludeIngredients" ps = Some (JStr (String.concat "," xi)) /\
    (forall http, fetch_recipes http API_KEY a = (response <-? http ps ;; handle_response response)).
Proof.
  intros a. unfold fetch_params. simpl.
  rewrite !py_join_strs. simpl.
  eexists; split; [reflexivity|].
  repeat split. intros http. apply fetch_recipes_unfold.
  unfold fetch_params; simpl. rewrite !py_join_strs. reflexivity.
Qed.

Example fetch_params_egg_milk :
  exists ps, fetch_params "KEY" args_pasta = POk ps /\
    dict_lookup "includeIngredients" ps = Some (JStr "egg,milk") /\
    dict_lookup "excludeIngredients" ps = Some (JStr "").
Proof. eexists; split; [reflexivity|split; reflexivity]. Qed.

(** C7 (as stated): a non-200 response whose body is not JSON (an HTML
    gateway page, say) makes [response.json()] raise before the status is
    looked at, so the error carries neither the status nor a message. *)
Lemma fetch_recipes_non_json_error_body :
  fetch_recipes (fun _ => POk (mkResponse 502 None)) "KEY" args_pasta = PErr ResponseJSONError /\
  (forall m, fetch_recipes (fun _ => POk (mkResponse 502 None)) "KEY" args_pasta
             <> PErr (ApiError m)).
Proof. split; [reflexivity|]. intros m. simpl. discriminate. Qed.

(** C7 (amended): a non-200 response is fetched once and yields no recipes;
    when its body is a JSON object the error raised is [Error fetching
    recipes: <status> <message>], with ["Unknown error"] for an absent
    message. *)
Theorem fetch_recipes_non200_error (http : params -> pyres Response) (API_KEY : string)
    (a : FetchArgs) (ps : params) (resp : Response) :
  fetch_params API_KEY a = POk ps -> http ps = POk resp -> status_code resp <> 200%Z ->
  fetch_recipes http API_KEY a = handle_response resp /\
  (forall rs, fetch_recipes http API_KEY a <> POk rs) /\
  (forall kvs, body resp = Some (JObj kvs) ->
     fetch_recipes http API_KEY a =
       PErr (ApiError ("Error fetching recipes: " ++ pretty (status_code resp) ++ " " ++
                       py_str (match dict_lookup "message" kvs with
                               | Some m => m
                               | None => JStr "Unknown error"
                               end)))).
Proof.
  intros Hp Hh Hs.
  assert (E : fetch_recipes http API_KEY a = handle_response resp).
  { rewrite (fetch_recipes_unfold _ _ _ ps Hp), Hh. reflexivity. }
  rewrite E. unfold handle_response.
  apply Z.eqb_neq in Hs. rewrite Hs.
  split; [reflexivity|]. split.
  - intros rs. unfold response_json. destruct (body resp) as [j|]; simpl; [|discriminate].
    destruct j; simpl; discriminate.
  - intros kvs Hb. unfold response_json. rewrite Hb. simpl. reflexivity.
Qed.

(** ** Normalization of a successful response *)

Lemma pmap_app_inv {A B} (f : A -> pyres B) (l1 l2 : list A) (ys : list B) :
  pmap f (app l1 l2) = POk ys ->
  exists y1 y2, pmap f l1 = POk y1 /\ pmap f l2 = POk y2 /\ ys = app y1 y2.
Proof.
  revert ys. induction l1 as [|x l1 IH]; intros ys H; simpl in *.
  - exists [], ys. auto.
  - pinv. destruct (IH _ eq_refl) as (y1 & y2 & H1 & H2 & ->).
    exists (a :: y1), y2. rewrite H1. subst. auto.
Qed.

Lemma pmap_Forall2 {A B} (f : A -> pyres B) (l : list A) (ys : list B) :
  pmap f l = POk ys -> Forall2 (fun x y => f x = POk y) l ys.
Proof.
  revert ys. induction l as [|x l IH]; intros ys H; simpl in *.
  - injection H as <-. constructor.
  - pinv. subst. constructor; auto.
Qed.

Lemma pmap_ok {A B} (f : A -> pyres B) (P : A -> Prop) (l : list A) :
  (forall x, P x -> exists y, f x = POk y) -> Forall P l -> exists ys, pmap f l = POk ys.
Proof.
  intros Hf HP. induction HP as [|x l Hx _ IH]; simpl.
  - eauto.
  - destruct (Hf x Hx) as [y ->]. destruct IH as [ys ->]. simpl. eauto.
Qed.

Lemma pmap_err {A B} (f : A -> pyres B) (l : list A) (e : exn) :
  pmap f l = PErr e -> Exists (fun x => f x = PErr e) l.
Proof.
  induction l as [|x l IH]; simpl; [discriminate|].
  destruct (f x) eqn:Ex; simpl.
  - destruct (pmap f l) eqn:El; simpl; [discriminate|].
    intros H; injection H as ->. right. auto.
  - intros H; injection H as ->. left. exact Ex.
Qed.

Lemma str_chars_app (s1 s2 : string) : str_chars (s1 ++ s2) = app (str_chars s1) (str_chars s2).
Proof.
  induction s1 as [|c s1 IH]; simpl; [reflexivity|].
  unfold str_chars in *; simpl. rewrite IH. reflexivity.
Qed.

(** Iterating [a + b] is iterating [a] then [b]. *)
Lemma py_add_iter (a b c : json) (l : list json) :
  py_add a b = POk c -> py_iter c = POk l ->
  exists la lb, py_iter a = POk la /\ py_iter b = POk lb /\ l = app la lb.
Proof.
  intros Ha Hi.
  destruct a, b; simpl in Ha;
    try discriminate;
    try (injection Ha as <-; discriminate Hi);
    try (destruct b; injection Ha as <-; discriminate Hi);
    try (destruct b, b0; injection Ha as <-; discriminate Hi);
    try (destruct b0; injection Ha as <-; discriminate Hi).
  - injection Ha as <-. simpl in Hi. injection Hi as <-.
    exists (str_chars s), (str_chars s0). rewrite str_chars_app. auto.
  - injection Ha as <-. simpl in Hi. injection Hi as <-. eauto.
Qed.

Lemma to_recipe_ok_inv (j : json) (r : Recipe) :
  to_recipe j = POk r -> recipe_normalized j r.
Proof.
  unfold to_recipe. intros H. pinv. subst r.
  destruct (py_add_iter _ _ _ _ E4 E5) as (la & lb & Ha & Hb & ->).
  destruct (pmap_app_inv _ _ _ _ E6) as (y1 & y2 & H1 & H2 & ->).
  destruct a7 as [| | |s|[|g0 rest]|]; simpl in E8; try discriminate.
  - unfold str_chars in E8. destruct (String.list_ascii_of_string s); simpl in E8;
      [discriminate|]. injection E8 as <-. discriminate E9.
  - injection E8 as <-.
    unfold recipe_normalized; simpl.
    exists a2, a3, la, lb, y1, y2, g0, rest, a9, a10. repeat split; assumption.
Qed.

Lemma to_recipe_well_shaped (j : json) :
  well_shaped j -> exists r, to_recipe j = POk r.
Proof.
  intros (kvs & ml & ul & gk & rest & sl & -> & Hm & Fm & Hu & Fu & Ha & Hs & Fs).
  assert (Hing : forall x, is_obj x -> exists y, to_ingredient x = POk y)
    by (intros x [kx ->]; eexists; reflexivity).
  assert (Hins : forall x, is_obj x -> exists y, to_instruction x = POk y)
    by (intros x [kx ->]; eexists; reflexivity).
  destruct (pmap_ok _ _ _ Hing (Forall_app_2 _ _ _ Fm Fu)) as [im Him].
  destruct (pmap_ok _ _ _ Hins Fs) as [ins Hins'].
  unfold to_recipe, py_subscript; simpl.
  rewrite Hm, Hu. simpl. rewrite Him. simpl. rewrite Ha. simpl. rewrite Hs. simpl.
  rewrite Hins'. simpl. eauto.
Qed.

Lemma fetch_recipes_200 (http : params -> pyres Response) (API_KEY : string)
    (a : FetchArgs) (ps : params) (resp : Response) (j : json) :
  fetch_params API_KEY a = POk ps -> http ps = POk resp ->
  status_code resp = 200%Z -> body resp = Some j ->
  fetch_recipes http API_KEY a = (rs <-? results_of j ;; pmap to_recipe rs).
Proof.
  intros Hp Hh Hs Hb. rewrite (fetch_recipes_unfold _ _ _ ps Hp), Hh. simpl.
  unfold handle_response, response_json. rewrite Hb, Hs. reflexivity.
Qed.

Lemma Forall2_in_left {A B} (P : A -> B -> Prop) (l : list A) (k : list B) (x : A) :
  Forall2 P l k -> In x l -> exists y, P x y.
Proof.
  intros HF. induction HF as [|a b l k Hab _ IH]; simpl; [tauto|].
  intros [->|Hx]; eauto.
Qed.

Lemma lacks_shape_not_ok (j : json) (r : Recipe) : lacks_shape j -> to_recipe j <> POk r.
Proof.
  intros (kvs & -> & Hl) Hr. apply to_recipe_ok_inv in Hr.
  destruct Hr as (missed & used & ml & ul & im & iu & g0 & rest & steps & sl &
                  _ & _ & _ & Hm & Hu & _ & _ & _ & _ & _ & Ha & _).
  unfold py_subscript in Hm, Hu, Ha.
  destruct Hl as [H|[H|[H|H]]]; rewrite H in *; discriminate.
Qed.

Lemma is_obj_ingredient (x : json) : is_obj x -> exists y, to_ingredient x = POk y.
Proof. intros [kx ->]. eexists; reflexivity. Qed.

Lemma is_obj_instruction (x : json) : is_obj x -> exists y, to_instruction x = POk y.
Proof. intros [kx ->]. eexists; reflexivity. Qed.

Lemma typed_to_recipe_err (j : json) (e : exn) :
  typed_where_present j -> to_recipe j = PErr e -> e = KeyError \/ e = IndexError.
Proof.
  intros (kvs & -> & Hmo & Huo & Hao) H.
  unfold to_recipe, py_subscript in H. simpl in H.
  destruct (dict_lookup "missedIngredients" kvs) as [vm|] eqn:Hm; simpl in H;
    [|injection H as <-; auto].
  destruct (Hmo _ Hm) as (lm & -> & Fm).
  destruct (dict_lookup "usedIngredients" kvs) as [vu|] eqn:Hu; simpl in H;
    [|injection H as <-; auto].
  destruct (Huo _ Hu) as (lu & -> & Fu).
  destruct (pmap_ok _ _ _ is_obj_ingredient (Forall_app_2 _ _ _ Fm Fu)) as [im Him].
  simpl in H. rewrite Him in H. simpl in H.
  destruct (dict_lookup "analyzedInstructions" kvs) as [va|] eqn:Ha; simpl in H;
    [|injection H as <-; auto].
  destruct (Hao _ eq_refl) as [->|(gk & rest & -> & Hso)].
  - simpl in H. injection H as <-. auto.
  - simpl in H.
    destruct (dict_lookup "steps" gk) as [vs|] eqn:Hs; simpl in H;
      [|injection H as <-; auto].
    destruct (Hso _ Hs) as (sl & -> & Fs).
    destruct (pmap_ok _ _ _ is_obj_instruction Fs) as [ins Hins].
    simpl in H. rewrite Hins in H. discriminate H.
Qed.

(** C3: on an HTTP 200 response with a JSON object body, an absent
    [results] key gives no recipes; otherwise, whenever [fetch_recipes]
    returns, it returns one recipe per element of [results], in order, whose
    ingredients are those of [missedIngredients] followed by those of
    [usedIngredients] and whose instructions are the steps of the first
    instruction group only; and it does return when every result has the
    indexed keys with list values. *)
Theorem fetch_recipes_200_normalized (http : params -> pyres Response) (API_KEY : string)
    (a : FetchArgs) (ps : params) (resp : Response) (kvs : list (string * json)) :
  fetch_params API_KEY a = POk ps -> http ps = POk resp ->
  status_code resp = 200%Z -> body resp = Some (JObj kvs) ->
  (dict_lookup "results" kvs = None -> fetch_recipes http API_KEY a = POk []) /\
  (forall res, results_of (JObj kvs) = POk res ->
     (forall rs, fetch_recipes http API_KEY a = POk rs -> Forall2 recipe_normalized res rs) /\
     (Forall well_shaped res -> exists rs, fetch_recipes http API_KEY a = POk rs)).
Proof.
  intros Hp Hh Hs Hb. rewrite (fetch_recipes_200 _ _ _ _ _ _ Hp Hh Hs Hb).
  split.
  - intros Hn. unfold results_of, py_get. rewrite Hn. reflexivity.
  - intros res Hres. rewrite Hres. simpl. split.
    + intros rs Hrs. apply pmap_Forall2 in Hrs.
      eapply Forall2_impl; [exact Hrs|]. intros x y. apply to_recipe_ok_inv.
    + intros Hw. apply (pmap_ok _ _ _ to_recipe_well_shaped Hw).
Qed.

(** C10: on an HTTP 200 response, if some result lacks [missedIngredients],
    [usedIngredients] or [analyzedInstructions], or has an empty
    [analyzedInstructions], [fetch_recipes] raises instead of returning;
    when the results are otherwise well typed the exception is a [KeyError]
    or an [IndexError]. *)
Theorem fetch_recipes_200_requires_shape (http : params -> pyres Response)
    (API_KEY : string) (a : FetchArgs) (ps : params) (resp : Response)
    (kvs : list (string * json)) (res : list json) :
  fetch_params API_KEY a = POk ps -> http ps = POk resp ->
  status_code resp = 200%Z -> body resp = Some (JObj kvs) ->
  results_of (JObj kvs) = POk res -> Exists lacks_shape res ->
  (forall rs, fetch_recipes http API_KEY a <> POk rs) /\
  (Forall typed_where_present res ->
     fetch_recipes http API_KEY a = PErr KeyError \/
     fetch_recipes http API_KEY a = PErr IndexError).
Proof.
  intros Hp Hh Hs Hb Hres Hex. rewrite (fetch_recipes_200 _ _ _ _ _ _ Hp Hh Hs Hb), Hres.
  simpl.
  assert (Hno : forall rs, pmap to_recipe res <> POk rs).
  { intros rs Hrs. apply pmap_Forall2 in Hrs.
    apply Exists_exists in Hex as (x & Hx & Hl).
    apply list_elem_of_In in Hx.
    destruct (Forall2_in_left _ _ _ _ Hrs Hx) as (r & Hr).
    exact (lacks_shape_not_ok x r Hl Hr). }
  split; [exact Hno|].
  intros Ht. destruct (pmap to_recipe res) as [rs|e] eqn:E; [exfalso; exact (Hno rs eq_refl)|].
  apply pmap_err in E. apply Exists_exists in E as (x & Hx & He).
  rewrite Forall_forall in Ht.
  destruct (typed_to_recipe_err x e (Ht x Hx) He) as [->| ->]; auto.
Qed.

(** ** The orchestrator *)

Lemma replies_app (l1 l2 : list event) : replies (app l1 l2) = app (replies l1) (replies l2).
Proof. induction l1 as [|[] l1 IH]; simpl; rewrite ?IH; reflexivity. Qed.

Lemma fetch_calls_app (l1 l2 : list event) :
  fetch_calls (app l1 l2) = fetch_calls l1 + fetch_calls l2.
Proof. induction l1 as [|[] l1 IH]; simpl; rewrite ?IH; reflexivity. Qed.

Lemma quiet_app (l1 l2 : list event) : quiet l1 -> quiet l2 -> quiet (app l1 l2).
Proof.
  intros [R1 F1] [R2 F2]. split; [rewrite replies_app, R1, R2|rewrite fetch_calls_app, F1, F2];
    reflexivity.
Qed.

Lemma retry_loop_S (lm : nat -> lm_outcome) (attempts : Z) (n attempt : nat) :
  retry_loop lm attempts (S n) attempt =
  (emit (Log (LogAttempt (S attempt))) ;;;
   catch (j <- parse_user_message lm ;; mret (Some j))
     (fun e => if is_json_decode_error e then
                 if Z.ltb (Z.of_nat attempt) (attempts - 1)
                 then retry_loop lm attempts n (S attempt)
                 else mraise e
               else mraise e)).
Proof. reflexivity. Qed.

(** The parse step only logs. *)
Lemma retry_loop_quiet (lm : nat -> lm_outcome) (attempts : Z) (n attempt : nat)
    (s : AgentState) :
  exists evs, trace (snd (retry_loop lm attempts n attempt s)) = app (trace s) evs /\ quiet evs.
Proof.
  revert attempt s. induction n as [|n IH]; intros attempt s.
  - exists []. simpl. rewrite app_nil_r. split; [reflexivity|split; reflexivity].
  - rewrite retry_loop_S.
    cbv beta iota zeta delta [mbind mret mraise emit catch completion parse_user_message].
    simpl.
    assert (Hrec : forall e s', exists evs,
      trace (snd ((if (Z.of_nat attempt <? attempts - 1)%Z
                   then retry_loop lm attempts n (S attempt)
                   else fun s0 => (PErr e, s0)) s')) = app (trace s') evs
      /\ quiet evs).
    { intros e s'. destruct (Z.of_nat attempt <? attempts - 1)%Z; [apply IH|].
      exists []. rewrite app_nil_r. split; [reflexivity|split; reflexivity]. }
    destruct (lm (lm_calls s)) as [e| |j]; simpl; [destruct e; simpl| |];
      try (rewrite <- ?app_assoc; eexists; split; [reflexivity|split; reflexivity]);
      match goal with |- exists _, trace (snd ((if _ then _ else fun _ => (PErr ?e, _)) ?s'))
                               = _ /\ _ =>
        destruct (Hrec e s') as (evs & Ht & Hq);
        rewrite Ht; simpl; rewrite <- !app_assoc;
        eexists; split;
        [reflexivity|repeat (apply quiet_app; [split; reflexivity|]); exact Hq] end.
Qed.

Lemma parse_quiet (lm : nat -> lm_outcome) (attempts : Z) (r : pyres (option json))
    (st : AgentState) :
  parse_user_message_with_retries lm attempts init_state = (r, st) -> quiet (trace st).
Proof.
  intros H. destruct (retry_loop_quiet lm attempts 3 0 init_state) as (evs & Ht & Hq).
  unfold parse_user_message_with_retries in H. rewrite H in Ht. simpl in Ht.
  rewrite Ht. exact Hq.
Qed.

Lemma reply_each_trace (formatter : Recipe -> string) (rs : list Recipe) (s : AgentState) :
  reply_each formatter rs s =
    (POk tt, mkAgentState (lm_calls s) (app (trace s) (map (fun r => Reply (formatter r)) rs))).
Proof.
  revert s. induction rs as [|r rs IH]; intros s; simpl.
  - rewrite app_nil_r. destruct s; reflexivity.
  - unfold mbind, emit. rewrite IH. simpl. rewrite <- app_assoc. reflexivity.
Qed.


Lemma fetch_calls_map_formatter (formatter : Recipe -> string) (rs : list Recipe) :
  fetch_calls (map (fun r => Reply (formatter r)) rs) = 0.
Proof. induction rs as [|r rs IH]; simpl; rewrite ?IH; reflexivity. Qed.

Lemma agent_fetch_args_obj (kvs : list (string * json)) :
  exists a, agent_fetch_args (Some (JObj kvs)) = POk a.
Proof. eexists; reflexivity. Qed.



Section Orchestrator.

Variable lm : nat -> lm_outcome.
Variable provider : FetchArgs -> pyres (list Recipe).
Variable formatter : Recipe -> string.

(** C4: when the parsed output carries a string under ["message"], the
    request gets exactly one reply, that string, and the provider is never
    called. *)
Theorem run_capability_message (kvs : list (string * json)) (m : string) (st : AgentState) :
  parse_user_message_with_retries lm 3 init_state = (POk (Some (JObj kvs)), st) ->
  dict_lookup "message" kvs = Some (JStr m) ->
  replies (trace (snd (run lm provider formatter init_state))) = [m] /\
  fetch_calls (trace (snd (run lm provider formatter init_state))) = 0.
Proof.
  intros Hp Hm. pose proof (parse_quiet _ _ _ _ Hp) as [R F].
  orch_simpl. rewrite Hp. simpl. rewrite Hm. simpl.
  rewrite !replies_app, !fetch_calls_app, R, F. split; reflexivity.
Qed.


Lemma run_inner_error_trace (e : exn) (st : AgentState) :
  run_inner lm provider formatter init_state = (PErr e, st) ->
  quiet (trace st) \/ (replies (trace st) = [PREPARING] /\ fetch_calls (trace st) = 1).
Proof.
  cbv beta iota zeta delta [run_inner mbind mret mraise emit lift call_provider].
  destruct (parse_user_message_with_retries lm 3 init_state) as [[p|e'] s1] eqn:Ep;
    pose proof (parse_quiet _ _ _ _ Ep) as Hq; simpl; intros H.
  2: { injection H as <- <-. left. exact Hq. }
  destruct Hq as [R F].
  assert (Hlog : quiet (app (trace s1) [Log LogParsed]))
    by (apply quiet_app; [split; assumption|split; reflexivity]).
  destruct p as [j|]; simpl in H; [|injection H as <- <-; left; exact Hlog].
  destruct j as [| | | | |kvs]; simpl in H; try (injection H as <- <-; left; exact Hlog).
  destruct (dict_lookup "message" kvs) as [msg|] eqn:Em; [destruct msg|]; simpl in H;
    try discriminate H;
    (destruct (provider _) as [rs|e'] eqn:Hpr; cbv beta iota in H;
     [destruct (pmap recipe_str rs) as [ss|e''] eqn:Hss; cbv beta iota in H;
      [destruct rs as [|r rs']; cbv beta iota in H;
         [discriminate H|rewrite reply_each_trace in H; discriminate H]|]
     |];
     injection H as <- <-; right; simpl;
     rewrite !replies_app, !fetch_calls_app, R, F; split; reflexivity).
Qed.

(** C1 (amended): a failing request ends normally with exactly one error
    reply, the last one.  A failure before the branch (parse errors, an LM
    error, a parsed value that is not a dict) gets only that reply; a
    failure from the provider call on (the provider's error, or the
    [str(recipe)] of the "Fetched" log) comes after the one "Preparing"
    status reply and a single provider call. *)
Theorem run_failure_one_error_reply (e : exn) (st : AgentState) :
  run_inner lm provider formatter init_state = (PErr e, st) ->
  fst (run lm provider formatter init_state) = POk tt /\
  exists pre,
    replies (trace (snd (run lm provider formatter init_state))) = app pre [error_reply e] /\
    ((pre = [] /\ fetch_calls (trace (snd (run lm provider formatter init_state))) = 0) \/
     (pre = [PREPARING] /\
      fetch_calls (trace (snd (run lm provider formatter init_state))) = 1)).
Proof.
  intros H. pose proof (run_inner_error_trace e st H) as Ht.
  unfold run, catch. rewrite H. unfold mbind, emit. simpl.
  split; [reflexivity|].
  rewrite !replies_app, !fetch_calls_app. simpl.
  destruct Ht as [[R F]|[R F]]; rewrite R, F.
  - exists []. split; [reflexivity|left; split; reflexivity].
  - exists [PREPARING]. split; [reflexivity|right; split; reflexivity].
Qed.

End Orchestrator.

(** ** Concrete instances *)

(** The normalization example: 5 ingredients, missed first, and only the 2
    steps of the first group. *)
Example sample_recipe_normalized :
  exists r, sample_recipes = [r] /\
    map ing_title (ingredients r) =
      [JStr "flour"; JStr "sugar"; JStr "egg"; JStr "milk"; JStr "butter"] /\
    map step (instructions r) = [JStr "Mix"; JStr "Fry"].
Proof. eexists; split; [reflexivity|split; reflexivity]. Qed.

Lemma parse_retries_three_attempts_witness :
  lm_retry3 0 = LMMalformed /\ lm_retry3 1 = LMMalformed /\
  lm_retry3 2 = LMJson (JObj [("query", JStr "pasta")]) /\
  (exists st, parse_user_message_with_retries lm_retry3 3 init_state =
                (POk (Some (JObj [("query", JStr "pasta")])), st) /\ lm_calls st = 3) /\
  (exists st, parse_user_message_with_retries lm_all_malformed 3 init_state =
                (PErr JSONDecodeError, st) /\ lm_calls st = 3).
Proof.
  split; [reflexivity|]. split; [reflexivity|]. split; [reflexivity|]. split.
  - apply (proj1 (parse_retries_three_attempts lm_retry3 eq_refl eq_refl)). reflexivity.
  - apply (proj2 (parse_retries_three_attempts lm_all_malformed eq_refl eq_refl)).
    reflexivity.
Defined.

Lemma parse_retries_other_error_no_retry_witness :
  lm_transport 0 = LMRaise TransportError /\ is_json_decode_error TransportError = false /\
  exists st, parse_user_message_with_retries lm_transport 3 init_state = (PErr TransportError, st)
             /\ lm_calls st = 1.
Proof.
  split; [reflexivity|]. split; [reflexivity|].
  exact (parse_retries_other_error_no_retry lm_transport 3 TransportError eq_refl eq_refl).
Defined.

Lemma parse_retries_large_attempts_returns_none_witness :
  (3 < 5)%Z /\ (forall k, k < 3 -> lm_all_malformed k = LMMalformed) /\
  exists st, parse_user_message_with_retries lm_all_malformed 5 init_state = (POk None, st)
             /\ lm_calls st = 3.
Proof.
  split; [lia|]. split; [reflexivity|].
  apply (parse_retries_large_attempts_returns_none lm_all_malformed 5); [lia|].
  intros k _. reflexivity.
Defined.

Lemma fetch_recipes_non200_error_witness :
  fetch_params "KEY" args_pasta = POk params_pasta /\
  http_quota params_pasta = POk (mkResponse 402 (Some (JObj quota_body))) /\
  fetch_recipes http_quota "KEY" args_pasta =
    PErr (ApiError "Error fetching recipes: 402 quota exceeded").
Proof.
  split; [reflexivity|]. split; [reflexivity|].
  destruct (fetch_recipes_non200_error http_quota "KEY" args_pasta params_pasta
              (mkResponse 402 (Some (JObj quota_body))) eq_refl eq_refl ltac:(discriminate))
    as (_ & _ & H).
  rewrite (H quota_body eq_refl). vm_compute. reflexivity.
Defined.

Lemma fetch_recipes_200_normalized_witness :
  fetch_params "KEY" args_pasta = POk params_pasta /\
  http_ok params_pasta = POk (mkResponse 200 (Some (JObj sample_body))) /\
  Forall2 recipe_normalized [sample_result] sample_recipes.
Proof.
  split; [reflexivity|]. split; [reflexivity|].
  destruct (fetch_recipes_200_normalized http_ok "KEY" args_pasta params_pasta
              (mkResponse 200 (Some (JObj sample_body))) sample_body
              eq_refl eq_refl eq_refl eq_refl) as [_ H].
  apply (proj1 (H [sample_result] eq_refl)). reflexivity.
Defined.

Lemma fetch_recipes_200_requires_shape_witness :
  Exists lacks_shape (match results_of (JObj partial_body) with POk l => l | PErr _ => [] end) /\
  fetch_recipes http_partial "KEY" args_pasta = PErr KeyError.
Proof.
  assert (Hx : Exists lacks_shape
                 (match results_of (JObj partial_body) with POk l => l | PErr _ => [] end)).
  { simpl. left. eexists; split; [reflexivity|]. right; left. reflexivity. }
  split; [exact Hx|].
  destruct (fetch_recipes_200_requires_shape http_partial "KEY" args_pasta params_pasta
              (mkResponse 200 (Some (JObj partial_body))) partial_body
              (match results_of (JObj partial_body) with POk l => l | PErr _ => [] end)
              eq_refl eq_refl eq_refl eq_refl eq_refl Hx) as [_ H].
  destruct H as [H|H].
  - simpl. constructor; [|constructor].
    eexists; split; [reflexivity|]. repeat split.
    + intros v Hv. injection Hv as <-. eexists; split; [reflexivity|].
      repeat constructor; eexists; reflexivity.
    + intros v Hv. discriminate Hv.
    + intros v Hv. discriminate Hv.
  - exact H.
  - vm_compute in H. discriminate H.
Defined.

Lemma run_capability_message_witness :
  parse_user_message_with_retries lm_capability 3 init_state =
    (POk (Some (JObj capability_filters)), parse_state lm_capability) /\
  dict_lookup "message" capability_filters = Some (JStr "I suggest recipes you can cook at home.") /\
  replies (trace (snd (run lm_capability provider_ok title_formatter init_state))) =
    ["I suggest recipes you can cook at home."] /\
  fetch_calls (trace (snd (run lm_capability provider_ok title_formatter init_state))) = 0.
Proof.
  split; [reflexivity|]. split; [reflexivity|].
  apply (run_capability_message lm_capability provider_ok title_formatter capability_filters
           _ (parse_state lm_capability)); reflexivity.
Defined.



(** C1 (as stated): a provider failure after a successful parse gets two
    replies, the "Preparing" status and then the error reply. *)
Lemma run_failure_two_replies :
  fst (run_inner lm_pasta provider_down title_formatter init_state) = PErr down_error /\
  replies (trace (snd (run lm_pasta provider_down title_formatter init_state))) =
    [PREPARING; UNEXPECTED_ERROR_REPLY].
Proof. split; reflexivity. Qed.

Lemma run_failure_one_error_reply_witness :
  run_inner lm_pasta provider_down title_formatter init_state = (PErr down_error, failed_state) /\
  fst (run lm_pasta provider_down title_formatter init_state) = POk tt /\
  exists pre,
    replies (trace (snd (run lm_pasta provider_down title_formatter init_state))) =
      app pre [error_reply down_error] /\
    ((pre = [] /\
      fetch_calls (trace (snd (run lm_pasta provider_down title_formatter init_state))) = 0) \/
     (pre = [PREPARING] /\
      fetch_calls (trace (snd (run lm_pasta provider_down title_formatter init_state))) = 1)).
Proof.
  split; [reflexivity|].
  apply (run_failure_one_error_reply lm_pasta provider_down title_formatter down_error
           failed_state).
  reflexivity.
Defined.

(** C3 (as stated): an HTTP 200 response whose only result lacks
    [usedIngredients] yields no recipe list at all: [fetch_recipes] raises
    [KeyError]. *)
Lemma fetch_recipes_200_partial_result :
  status_code (mkResponse 200 (Some (JObj partial_body))) = 200%Z /\
  fetch_recipes http_partial "KEY" args_pasta = PErr KeyError /\
  (forall rs, fetch_recipes http_partial "KEY" args_pasta <> POk rs).
Proof. split; [reflexivity|]. split; [reflexivity|]. intros rs. discriminate. Qed.

(** * Further properties of the code *)

(** ** The retry loop *)

(** X1: When every completion is malformed JSON, the retry loop makes min(3, max(1, attempts)) completion calls. It raises the JSON decode error when attempts is at most 3 and returns None when attempts is above 3. *)
Theorem parse_all_malformed_calls (lm : nat -> lm_outcome) (attempts : Z) :
  (forall k, k < 3 -> lm k = LMMalformed) ->
  exists st,
    parse_user_message_with_retries lm attempts init_state =
      ((if (attempts <=? 3)%Z then PErr JSONDecodeError else POk None), st) /\
    lm_calls st = Z.to_nat (Z.min 3 (Z.max 1 attempts)).
Proof.
  intros Hm. agent_simpl.
  rewrite (Hm 0) by lia. simpl.
  destruct (Z.ltb_spec (Z.of_nat 0) (attempts - 1)); simpl.
  2: { replace (attempts <=? 3)%Z with true by (symmetry; apply Z.leb_le; lia).
       eexists; split; [reflexivity|simpl; lia]. }
  rewrite (Hm 1) by lia. simpl.
  destruct (Z.ltb_spec (Z.of_nat 1) (attempts - 1)); simpl.
  2: { replace (attempts <=? 3)%Z with true by (symmetry; apply Z.leb_le; lia).
       eexists; split; [reflexivity|simpl; lia]. }
  rewrite (Hm 2) by lia. simpl.
  destruct (Z.ltb_spec (Z.of_nat 2) (attempts - 1)); simpl.
  - replace (attempts <=? 3)%Z with false by (symmetry; apply Z.leb_gt; lia).
    eexists; split; [reflexivity|simpl; lia].
  - replace (attempts <=? 3)%Z with true by (symmetry; apply Z.leb_le; lia).
    eexists; split; [reflexivity|simpl; lia].
Qed.

Lemma attempt_logs_app (l1 l2 : list event) :
  attempt_logs (app l1 l2) = app (attempt_logs l1) (attempt_logs l2).
Proof. induction l1 as [|[[]| |] l1 IH]; simpl; rewrite ?IH; reflexivity. Qed.

Lemma retry_loop_attempts (lm : nat -> lm_outcome) (attempts : Z) (n : nat) (s : AgentState) :
  let st := snd (retry_loop lm attempts n (lm_calls s) s) in
  lm_calls s <= lm_calls st <= lm_calls s + n /\
  attempt_logs (trace st) =
    app (attempt_logs (trace s)) (seq (S (lm_calls s)) (lm_calls st - lm_calls s)).
Proof.
  revert s. induction n as [|n IH]; intros s; simpl.
  - rewrite Nat.sub_diag. simpl. rewrite app_nil_r. split; [lia|reflexivity].
  - cbv beta iota zeta delta [mbind mret mraise emit catch completion parse_user_message].
    simpl.
    destruct (lm (lm_calls s)) as [e| |j]; simpl; [destruct e; simpl| |];
      rewrite ?attempt_logs_app; simpl;
      try (replace (S (lm_calls s) - lm_calls s) with 1 by lia; simpl;
           rewrite <- ?app_assoc; split; [lia|reflexivity]).
    all: destruct (Z.of_nat (lm_calls s) <? attempts - 1)%Z; simpl;
      [match goal with |- context [snd (retry_loop ?l ?ats ?k ?a ?s')] =>
         destruct (IH s') as [B L]; simpl in B, L;
         remember (snd (retry_loop l ats k a s')) as st eqn:Est; clear Est end;
       rewrite L, !attempt_logs_app; simpl;
       replace (lm_calls st - lm_calls s) with (S (lm_calls st - S (lm_calls s))) by lia;
       simpl; rewrite <- !app_assoc, ?app_nil_r; split; [lia|reflexivity]
      |rewrite !attempt_logs_app; simpl;
       replace (S (lm_calls s) - lm_calls s) with 1 by lia; simpl;
       rewrite <- ?app_assoc, ?app_nil_r; split; [lia|reflexivity]].
Qed.

(** X2: The retry loop makes at most 3 completion calls, and every call is preceded by exactly one attempt log entry: the logged attempt numbers are 1, 2, ..., up to the number of calls, in order. *)
Theorem parse_attempt_logs (lm : nat -> lm_outcome) (attempts : Z) :
  lm_calls (snd (parse_user_message_with_retries lm attempts init_state)) <= 3 /\
  attempt_logs (trace (snd (parse_user_message_with_retries lm attempts init_state))) =
    seq 1 (lm_calls (snd (parse_user_message_with_retries lm attempts init_state))).
Proof.
  pose proof (retry_loop_attempts lm attempts 3 init_state) as [B L].
  change (lm_calls init_state) with 0 in B, L.
  unfold parse_user_message_with_retries. split; [lia|].
  rewrite L, Nat.sub_0_r. reflexivity.
Qed.

(** ** Every request gets an answer *)

Section RunShape.

Variable lm : nat -> lm_outcome.
Variable provider : FetchArgs -> pyres (list Recipe).
Variable formatter : Recipe -> string.

Lemma run_inner_shape (r : pyres unit) (s : AgentState) :
  run_inner lm provider formatter init_state = (r, s) ->
  lm_calls s = lm_calls (snd (parse_user_message_with_retries lm 3 init_state)) /\
  fetch_calls (trace s) <= 1 /\ (forall u, r = POk u -> replies (trace s) <> []).
Proof.
  cbv beta iota zeta delta [run_inner mbind mret mraise emit lift call_provider].
  destruct (parse_user_message_with_retries lm 3 init_state) as [[p|e'] s1] eqn:Ep;
    pose proof (parse_quiet _ _ _ _ Ep) as [R F]; simpl; intros H.
  2: { injection H as <- <-. split; [reflexivity|split; [lia|intros u Hu; discriminate Hu]]. }
  destruct p as [j|]; simpl in H;
    [destruct j as [| | | | |kvs]; simpl in H|];
    try (injection H as <- <-; simpl; rewrite !fetch_calls_app, F; simpl;
         split; [reflexivity|split; [lia|intros u Hu; discriminate Hu]]).
  destruct (dict_lookup "message" kvs) as [msg|] eqn:Em; [destruct msg|]; simpl in H;
    try (injection H as <- <-; simpl; rewrite !replies_app, !fetch_calls_app, R, F; simpl;
         split; [reflexivity|split; [lia|intros u Hu; discriminate]]);
    (destruct (provider _) as [rs|e'] eqn:Hpr; cbv beta iota in H;
     [destruct (pmap recipe_str rs) as [ss|e''] eqn:Hss; cbv beta iota in H;
      [destruct rs as [|r' rs']; cbv beta iota in H; [|rewrite reply_each_trace in H]|]|]);
    injection H as <- <-; simpl; rewrite !replies_app, !fetch_calls_app, R, F; simpl;
    rewrite ?fetch_calls_map_formatter;
    (split; [reflexivity|split; [lia|intros u Hu; discriminate]]).
Qed.

Lemma run_total :
  fst (run lm provider formatter init_state) = POk tt /\
  replies (trace (snd (run lm provider formatter init_state))) <> [] /\
  lm_calls (snd (run lm provider formatter init_state)) <= 3 /\
  fetch_calls (trace (snd (run lm provider formatter init_state))) <= 1.
Proof.
  pose proof (parse_attempt_logs lm 3) as [B _].
  unfold run, catch.
  destruct (run_inner lm provider formatter init_state) as [r s] eqn:E.
  destruct (run_inner_shape r s E) as (Hl & Hf & Hr).
  destruct r as [u|e]; simpl.
  - destruct u. split; [reflexivity|split; [exact (Hr tt eq_refl)|split; lia]].
  - rewrite !replies_app, !fetch_calls_app. simpl.
    split; [reflexivity|split; [|split; lia]].
    intros Hc. apply app_eq_nil in Hc as [_ Hc]. discriminate Hc.
Qed.

(** X3: Agent.run never raises: every request ends normally with at least one reply, at most 3 completion calls and at most one recipe provider call. *)
Theorem run_always_answers :
  fst (run lm provider formatter init_state) = POk tt /\
  replies (trace (snd (run lm provider formatter init_state))) <> [] /\
  lm_calls (snd (run lm provider formatter init_state)) <= 3 /\
  fetch_calls (trace (snd (run lm provider formatter init_state))) <= 1.
Proof. exact run_total. Qed.

(** X4: When the parsed preferences have no string message and the provider returns no recipes, the replies are exactly the preparing status and the no-recipes apology, after one provider call. *)
Theorem run_no_recipes (kvs : list (string * json)) (st : AgentState) (a : FetchArgs) :
  parse_user_message_with_retries lm 3 init_state = (POk (Some (JObj kvs)), st) ->
  (forall m, dict_lookup "message" kvs <> Some (JStr m)) ->
  agent_fetch_args (Some (JObj kvs)) = POk a ->
  provider a = POk [] ->
  replies (trace (snd (run lm provider formatter init_state))) = [PREPARING; NO_RECIPES] /\
  fetch_calls (trace (snd (run lm provider formatter init_state))) = 1.
Proof.
  intros Hp Hm Ha Hpr. pose proof (parse_quiet _ _ _ _ Hp) as [R F].
  unfold agent_fetch_args in Ha. simpl in Ha. injection Ha as <-.
  orch_simpl. rewrite Hp. simpl.
  destruct (dict_lookup "message" kvs) as [msg|] eqn:Em;
    [destruct msg; try (exfalso; eapply Hm; reflexivity)|]; simpl;
    rewrite Hpr; cbv beta iota; simpl;
    rewrite !replies_app, !fetch_calls_app, R, F; split; reflexivity.
Qed.

(** X5: When the parse step raises an error e, the only reply is the handler's reply for e ("Please try again" for a JSON decode error, the generic apology otherwise), the provider is never called, and no further completion call is made. *)
Theorem run_parse_failure (e : exn) (st : AgentState) :
  parse_user_message_with_retries lm 3 init_state = (PErr e, st) ->
  replies (trace (snd (run lm provider formatter init_state))) = [error_reply e] /\
  fetch_calls (trace (snd (run lm provider formatter init_state))) = 0 /\
  lm_calls (snd (run lm provider formatter init_state)) = lm_calls st.
Proof.
  intros Hp. pose proof (parse_quiet _ _ _ _ Hp) as [R F].
  orch_simpl. rewrite Hp. simpl.
  rewrite !replies_app, !fetch_calls_app, R, F. split; [|split]; reflexivity.
Qed.

(** X6: When the parse step returns a value that is not a dict (None after the loop falls through, or a JSON list, string, number, boolean or null), the only reply is the generic apology and the provider is never called. *)
Theorem run_parsed_not_dict (p : option json) (st : AgentState) :
  parse_user_message_with_retries lm 3 init_state = (POk p, st) ->
  (forall kvs, p <> Some (JObj kvs)) ->
  replies (trace (snd (run lm provider formatter init_state))) = [UNEXPECTED_ERROR_REPLY] /\
  fetch_calls (trace (snd (run lm provider formatter init_state))) = 0.
Proof.
  intros Hp Hn. pose proof (parse_quiet _ _ _ _ Hp) as [R F].
  orch_simpl. rewrite Hp. simpl.
  destruct p as [[| | | | |kvs]|]; [| | | | |exfalso; exact (Hn kvs eq_refl)|]; simpl;
    rewrite !replies_app, !fetch_calls_app, R, F; split; reflexivity.
Qed.

End RunShape.

(** ** Request parameters and responses *)

Lemma pmap_str_elem_cases (l : list json) :
  (exists ss, pmap str_elem l = POk ss) \/ pmap str_elem l = PErr TypeError.
Proof.
  induction l as [|x l IH]; simpl; [left; eauto|].
  destruct x; simpl; try (right; reflexivity).
  destruct IH as [[ss ->]| ->]; simpl; eauto.
Qed.

Lemma pmap_str_elem_bad (l : list json) :
  Exists (fun e => forall s, e <> JStr s) l -> pmap str_elem l = PErr TypeError.
Proof.
  induction 1 as [x l Hx|x l _ IH]; simpl.
  - destruct x; try reflexivity. exfalso. exact (Hx s eq_refl).
  - destruct x; simpl; try reflexivity. rewrite IH. reflexivity.
Qed.

Lemma py_join_cases (sep : string) (x : json) :
  (exists s, py_join sep x = POk s) \/ py_join sep x = PErr TypeError.
Proof.
  unfold py_join. destruct x; simpl; try (right; reflexivity);
    match goal with |- context [pmap str_elem ?l] =>
      destruct (pmap_str_elem_cases l) as [[ss ->]| ->] end; simpl; eauto.
Qed.

Lemma py_join_bad (sep : string) (x : json) : bad_filter x -> py_join sep x = PErr TypeError.
Proof.
  intros [->|[[b ->]|[[z ->]|[l [-> Hl]]]]]; try reflexivity.
  unfold py_join. simpl. rewrite (pmap_str_elem_bad l Hl). reflexivity.
Qed.

Lemma py_join_str (sep s : string) :
  py_join sep (JStr s) =
    POk (String.concat sep (map (fun c => String c EmptyString) (String.list_ascii_of_string s))).
Proof.
  unfold py_join, pbind at 1, py_iter, str_chars.
  rewrite <- (map_map (fun c => String c EmptyString) JStr), pmap_str_elem_strs.
  reflexivity.
Qed.

(** X7: Whenever the request parameters are built, query and number are passed through from the arguments, apiKey is the provider's key, and the fixed flags are instructionsRequired, addRecipeInformation, fillIngredients and ignorePantry set to "true", addRecipeNutrition set to "false", sort "calories" and sortDirection "desc". *)
Theorem fetch_params_fixed_fields (API_KEY : string) (a : FetchArgs) (ps : params) :
  fetch_params API_KEY a = POk ps ->
  dict_lookup "query" ps = Some (query a) /\
  dict_lookup "number" ps = Some (JNum (max_amount a)) /\
  dict_lookup "apiKey" ps = Some (JStr API_KEY) /\
  dict_lookup "instructionsRequired" ps = Some (JStr "true") /\
  dict_lookup "addRecipeInformation" ps = Some (JStr "true") /\
  dict_lookup "addRecipeNutrition" ps = Some (JStr "false") /\
  dict_lookup "fillIngredients" ps = Some (JStr "true") /\
  dict_lookup "ignorePantry" ps = Some (JStr "true") /\
  dict_lookup "sort" ps = Some (JStr "calories") /\
  dict_lookup "sortDirection" ps = Some (JStr "desc").
Proof.
  unfold fetch_params. intros H. pinv. subst ps.
  repeat split; reflexivity.
Qed.

(** X8: If one of the four filters is None, a boolean, a number, or a list with a non-string element, fetch_recipes raises TypeError while building the parameters, whatever the HTTP layer would answer. *)
Theorem fetch_recipes_bad_filter (http : params -> pyres Response) (API_KEY : string)
    (a : FetchArgs) :
  bad_filter (include_cuisines a) \/ bad_filter (exclude_cuisines a) \/
  bad_filter (include_ingredients a) \/ bad_filter (exclude_ingredients a) ->
  fetch_recipes http API_KEY a = PErr TypeError.
Proof.
  intros H. unfold fetch_recipes, fetch_params.
  destruct (py_join_cases "," (include_cuisines a)) as [[s1 E1]|E1]; rewrite E1; simpl;
    [|reflexivity].
  destruct (py_join_cases "," (exclude_cuisines a)) as [[s2 E2]|E2]; rewrite E2; simpl;
    [|reflexivity].
  destruct (py_join_cases "," (include_ingredients a)) as [[s3 E3]|E3]; rewrite E3; simpl;
    [|reflexivity].
  destruct (py_join_cases "," (exclude_ingredients a)) as [[s4 E4]|E4]; rewrite E4; simpl;
    [|reflexivity].
  exfalso. destruct H as [H|[H|[H|H]]]; apply (py_join_bad ",") in H; congruence.
Qed.

(** X9: A filter given as a plain string instead of a list is sent as its characters separated by commas ("egg" becomes "e,g,g"). *)
Theorem fetch_params_string_filter (API_KEY : string) (a : FetchArgs) (ps : params) :
  fetch_params API_KEY a = POk ps ->
  (forall s, include_cuisines a = JStr s -> dict_lookup "cuisine" ps =
     Some (JStr (String.concat "," (map (fun c => String c EmptyString)
                                       (String.list_ascii_of_string s))))) /\
  (forall s, exclude_cuisines a = JStr s -> dict_lookup "excludeCuisine" ps =
     Some (JStr (String.concat "," (map (fun c => String c EmptyString)
                                       (String.list_ascii_of_string s))))) /\
  (forall s, include_ingredients a = JStr s -> dict_lookup "includeIngredients" ps =
     Some (JStr (String.concat "," (map (fun c => String c EmptyString)
                                       (String.list_ascii_of_string s))))) /\
  (forall s, exclude_ingredients a = JStr s -> dict_lookup "excludeIngredients" ps =
     Some (JStr (String.concat "," (map (fun c => String c EmptyString)
                                       (String.list_ascii_of_string s))))).
Proof.
  unfold fetch_params. intros H. pinv. subst ps.
  repeat split; intros s Hs; simpl;
    match goal with E : py_join "," ?f = POk _, Hs : ?f = JStr s |- _ =>
      rewrite Hs, py_join_str in E; injection E as <- end; reflexivity.
Qed.

(** X10: An HTTP 200 response whose JSON object has no results key yields the empty recipe list. *)
Theorem handle_response_no_results (kvs : list (string * json)) :
  dict_lookup "results" kvs = None ->
  handle_response (mkResponse 200 (Some (JObj kvs))) = POk [].
Proof. intros H. unfold handle_response, results_of. simpl. rewrite H. reflexivity. Qed.

(** X11: An HTTP 200 response whose results field is null, a boolean or a number makes fetch_recipes raise TypeError instead of returning an empty list. *)
Theorem handle_response_scalar_results (kvs : list (string * json)) (v : json) :
  dict_lookup "results" kvs = Some v ->
  v = JNull \/ (exists b, v = JBool b) \/ (exists z, v = JNum z) ->
  handle_response (mkResponse 200 (Some (JObj kvs))) = PErr TypeError.
Proof.
  intros H Hv. unfold handle_response, results_of. simpl. rewrite H.
  destruct Hv as [->|[[b ->]|[z ->]]]; reflexivity.
Qed.

(** X12: Whatever the status code, a response body that is not JSON raises the response's JSON decode error, and a JSON body that is not an object raises AttributeError; neither yields recipes. *)
Theorem handle_response_non_object (status : Z) (b : option json) :
  (forall kvs, b <> Some (JObj kvs)) ->
  handle_response (mkResponse status b) =
    PErr (match b with None => ResponseJSONError | Some _ => AttributeError end).
Proof.
  intros Hb. unfold handle_response, results_of, response_json. simpl.
  destruct b as [j|]; [|reflexivity]. simpl.
  destruct j as [| | | | |kvs]; try (exfalso; exact (Hb kvs eq_refl));
    destruct (status =? 200)%Z; reflexivity.
Qed.

(** ** The entry point *)

(** X13: When there is no last message, or its role is anything other than the string "user", main only requests user input. *)
Theorem main_not_user (http : params -> pyres Response) (lm : nat -> lm_outcome)
    (api_key : option string) (message : option json) :
  message = None \/
  (exists kvs r, message = Some (JObj kvs) /\ dict_lookup "role" kvs = Some r /\
                 r <> JStr "user") ->
  main http lm message api_key = POk RequestUserInput.
Proof.
  intros [->|(kvs & r & -> & Hr & Hn)]; [reflexivity|].
  unfold main, py_subscript. rewrite Hr. simpl.
  destruct r; try reflexivity.
  destruct (String.eqb_spec s "user") as [->|_]; [congruence|reflexivity].
Qed.

(** X14: When the last message is a dict without a role key, main raises KeyError. *)
Theorem main_missing_role (http : params -> pyres Response) (lm : nat -> lm_outcome)
    (api_key : option string) (kvs : list (string * json)) :
  dict_lookup "role" kvs = None ->
  main http lm (Some (JObj kvs)) api_key = PErr KeyError.
Proof. intros H. unfold main, py_subscript. rewrite H. reflexivity. Qed.

(** X15: For a user message and no SPOONACULAR_API_KEY in the environment, main logs the missing variable and replies with the configuration notice, without running the agent. *)
Theorem main_missing_api_key (http : params -> pyres Response) (lm : nat -> lm_outcome)
    (kvs : list (string * json)) :
  dict_lookup "role" kvs = Some (JStr "user") ->
  main http lm (Some (JObj kvs)) None = POk (ConfigError ENV_MISSING_LOG ENV_MISSING_REPLY).
Proof. intros H. unfold main, py_subscript. rewrite H. reflexivity. Qed.

(** X16: For a user message and any API key, main runs the agent, which ends with at least one reply, at most 3 completion calls and at most one recipe search. *)
Theorem main_runs_agent (http : params -> pyres Response) (lm : nat -> lm_outcome)
    (kvs : list (string * json)) (k : string) :
  dict_lookup "role" kvs = Some (JStr "user") ->
  exists st, main http lm (Some (JObj kvs)) (Some k) = POk (AgentRan st) /\
    replies (trace st) <> [] /\ lm_calls st <= 3 /\ fetch_calls (trace st) <= 1.
Proof.
  intros H. unfold main, py_subscript. rewrite H. simpl.
  eexists; split; [reflexivity|].
  apply (run_total lm (fetch_recipes http k) markdown_transform_to_text).
Qed.

(** ** The Markdown layout *)

Lemma str_app_assoc (a b c : string) : a ++ (b ++ c) = (a ++ b) ++ c.
Proof.
  induction a as [|x a IH]; [reflexivity|].
  change (String x (a ++ (b ++ c)) = String x ((a ++ b) ++ c)). rewrite IH. reflexivity.
Qed.

Lemma list_ascii_app (a b : string) :
  String.list_ascii_of_string (a ++ b) =
    app (String.list_ascii_of_string a) (String.list_ascii_of_string b).
Proof.
  induction a as [|x a IH]; [reflexivity|].
  change (x :: String.list_ascii_of_string (a ++ b) =
          x :: app (String.list_ascii_of_string a) (String.list_ascii_of_string b)).
  rewrite IH. reflexivity.
Qed.

Lemma nn_app (a b : string) :
  has_no_newline a -> has_no_newline b -> has_no_newline (a ++ b).
Proof.
  unfold has_no_newline. rewrite list_ascii_app. intros Ha Hb H.
  apply in_app_or in H as [H|H]; contradiction.
Qed.

Lemma nn_cons (c : Ascii.ascii) (s : string) :
  c <> nl_char -> has_no_newline s -> has_no_newline (String c s).
Proof. unfold has_no_newline. simpl. intros Hc Hs [H|H]; contradiction. Qed.

Lemma split_lines_no_nl (s : string) : has_no_newline s -> split_lines s = [s].
Proof.
  unfold has_no_newline. induction s as [|c s IH]; simpl; intros H; [reflexivity|].
  destruct (Ascii.eqb_spec c nl_char) as [->|_]; [exfalso; apply H; left; reflexivity|].
  rewrite IH; [reflexivity|]. intros Hs. apply H. right. exact Hs.
Qed.

Lemma split_lines_line (a b : string) :
  has_no_newline a -> split_lines (a ++ NL ++ b) = a :: split_lines b.
Proof.
  unfold has_no_newline. induction a as [|c a IH]; intros H.
  - reflexivity.
  - change (split_lines (String c (a ++ NL ++ b)) = String c a :: split_lines b). simpl.
    destruct (Ascii.eqb_spec c nl_char) as [->|_]; [exfalso; apply H; left; reflexivity|].
    rewrite IH; [reflexivity|]. intros Ha. apply H. right. exact Ha.
Qed.

Lemma split_lines_concat (xs : list string) :
  xs <> [] -> Forall has_no_newline xs -> split_lines (String.concat NL xs) = xs.
Proof.
  induction xs as [|x xs IH]; intros Hne Hf; [contradiction|].
  inversion Hf as [|? ? Hx Hxs]; subst.
  destruct xs as [|y ys].
  - apply split_lines_no_nl. exact Hx.
  - change (String.concat NL (x :: y :: ys)) with (x ++ NL ++ String.concat NL (y :: ys)).
    rewrite split_lines_line by exact Hx. rewrite IH by (discriminate || exact Hxs).
    reflexivity.
Qed.

Lemma concat_app (sep : string) (xs ys : list string) :
  xs <> [] -> ys <> [] ->
  String.concat sep (app xs ys) = String.concat sep xs ++ sep ++ String.concat sep ys.
Proof.
  induction xs as [|x xs IH]; intros Hx Hy; [contradiction|].
  destruct xs as [|x' xs'].
  - destruct ys as [|y ys]; [contradiction|]. reflexivity.
  - change (String.concat sep (app (x :: x' :: xs') ys))
      with (x ++ sep ++ String.concat sep (app (x' :: xs') ys)).
    change (String.concat sep (x :: x' :: xs')) with (x ++ sep ++ String.concat sep (x' :: xs')).
    rewrite IH by (discriminate || exact Hy). rewrite <- !str_app_assoc. reflexivity.
Qed.

Lemma pretty_N_go_nn (x : N) (s : string) :
  has_no_newline s -> has_no_newline (pretty_N_go x s).
Proof.
  revert s. induction (N.lt_wf_0 x) as [x _ IH]; intros s Hs.
  destruct (decide (0 < x)%N) as [Hx|Hx].
  - rewrite pretty_N_go_step by exact Hx. apply IH.
    + apply N.div_lt; [exact Hx|lia].
    + apply nn_cons; [|exact Hs]. unfold pretty_N_char, nl_char. repeat case_match; discriminate.
  - assert (x = 0)%N as -> by lia. rewrite pretty_N_go_0. exact Hs.
Qed.

Lemma pretty_nat_nn (n : nat) : has_no_newline (pretty n).
Proof.
  change (has_no_newline (if decide (N.of_nat n = 0)%N then "0"
                          else pretty_N_go (N.of_nat n) EmptyString)).
  destruct (decide (N.of_nat n = 0)%N); [nn_lit|]. apply pretty_N_go_nn. nn_lit.
Qed.

Lemma markdown_lines (r : Recipe) :
  ingredients r <> [] -> instructions r <> [] ->
  has_no_newline (py_str (title r)) -> has_no_newline (py_str (likes r)) ->
  has_no_newline (py_str (image r)) ->
  Forall (fun i => has_no_newline (py_str (ing_title i)) /\
                   has_no_newline (py_str (ing_image i))) (ingredients r) ->
  Forall (fun ins => has_no_newline (py_str (step ins))) (instructions r) ->
  split_lines (markdown_transform_to_text r) =
    app [EmptyString; "### " ++ py_str (title r); EmptyString;
         "Likes: " ++ py_str (likes r); EmptyString;
         "![Recipe Image](" ++ py_str (image r) ++ ")"; EmptyString;
         "##### Ingredients"; EmptyString; "| Ingredient | Image |"; "|------------|-------|"]
      (app (map md_ingredient_row (ingredients r))
        (app [EmptyString; EmptyString; "##### Steps"]
          (app (imap md_step_line (instructions r)) [EmptyString]))).
Proof.
  intros Hi Hs Ht Hl Him Hfi Hfs.
  assert (HR : map md_ingredient_row (ingredients r) <> []).
  { intros Hc. apply map_eq_nil in Hc. contradiction. }
  assert (HS : imap md_step_line (instructions r) <> []).
  { intros Hc. apply (f_equal length) in Hc. rewrite length_imap in Hc.
    destruct (instructions r); [contradiction|discriminate]. }
  assert (Hne : forall (A : Type) (l1 l2 : list A), l2 <> [] -> app l1 l2 <> []).
  { intros A l1 l2 H2 Hc. apply app_eq_nil in Hc as [_ Hc]. contradiction. }
  rewrite <- (split_lines_concat (app _ (app _ (app _ (app _ [EmptyString]))))).
  - f_equal.
    rewrite (concat_app NL _ (app (map md_ingredient_row (ingredients r)) _))
      by (discriminate || apply Hne, Hne, Hne; discriminate).
    rewrite (concat_app NL (map md_ingredient_row (ingredients r)) _)
      by (exact HR || apply Hne, Hne; discriminate).
    rewrite (concat_app NL [EmptyString; EmptyString; "##### Steps"] _)
      by (discriminate || apply Hne; discriminate).
    rewrite (concat_app NL (imap md_step_line (instructions r)) _)
      by (exact HS || discriminate).
    unfold markdown_transform_to_text, md_ingredient_table, md_ingredient_bulletpoints,
      md_instruction_steps, NL.
    simpl String.concat. rewrite <- !str_app_assoc. reflexivity.
  - apply Hne, Hne, Hne, Hne. discriminate.
  - apply Forall_app; split; [repeat constructor|apply Forall_app; split;
      [|apply Forall_app; split; [repeat constructor|apply Forall_app; split;
                                                     [|repeat constructor]]]];
      try nn_lit; try (repeat first [assumption|apply nn_app|nn_lit]).
    + apply Forall_forall. intros x Hx. apply list_elem_of_In, in_map_iff in Hx as (i & <- & Hin).
      rewrite Forall_forall in Hfi. destruct (Hfi i) as [Hti Himi];
        [apply list_elem_of_In; exact Hin|].
      unfold md_ingredient_row. repeat first [assumption|apply nn_app|nn_lit].
    + apply Forall_lookup. intros k x Hk. rewrite list_lookup_imap in Hk.
      destruct (instructions r !! k) as [ins|] eqn:Ek; simpl in Hk; [|discriminate Hk].
      injection Hk as <-. unfold md_step_line.
      apply nn_app; [apply pretty_nat_nn|apply nn_app; [nn_lit|]].
      exact (Forall_lookup_1 _ _ _ _ Hfs Ek).
Qed.

(** X17: For a recipe with at least one ingredient and one instruction and no newline in its rendered fields, the Markdown text consists of the heading, likes and image lines, the ingredients table with one row per ingredient in order, then the numbered steps, separated by the fixed blank lines. *)
Theorem markdown_layout (r : Recipe) :
  ingredients r <> [] -> instructions r <> [] ->
  has_no_newline (py_str (title r)) -> has_no_newline (py_str (likes r)) ->
  has_no_newline (py_str (image r)) ->
  Forall (fun i => has_no_newline (py_str (ing_title i)) /\
                   has_no_newline (py_str (ing_image i))) (ingredients r) ->
  Forall (fun ins => has_no_newline (py_str (step ins))) (instructions r) ->
  split_lines (markdown_transform_to_text r) =
    app [EmptyString; "### " ++ py_str (title r); EmptyString;
         "Likes: " ++ py_str (likes r); EmptyString;
         "![Recipe Image](" ++ py_str (image r) ++ ")"; EmptyString;
         "##### Ingredients"; EmptyString; "| Ingredient | Image |"; "|------------|-------|"]
      (app (map md_ingredient_row (ingredients r))
        (app [EmptyString; EmptyString; "##### Steps"]
          (app (imap md_step_line (instructions r)) [EmptyString]))).
Proof. exact (markdown_lines r). Qed.

(** X18: Under the same conditions, instruction i (counting from 0) is rendered on line 14 + (number of ingredients) + i of the Markdown text as "i+1. step". *)
Theorem markdown_step_numbering (r : Recipe) (i : nat) (ins : RecipeInstruction) :
  ingredients r <> [] -> instructions r <> [] ->
  has_no_newline (py_str (title r)) -> has_no_newline (py_str (likes r)) ->
  has_no_newline (py_str (image r)) ->
  Forall (fun i => has_no_newline (py_str (ing_title i)) /\
                   has_no_newline (py_str (ing_image i))) (ingredients r) ->
  Forall (fun ins => has_no_newline (py_str (step ins))) (instructions r) ->
  instructions r !! i = Some ins ->
  split_lines (markdown_transform_to_text r) !! (14 + length (ingredients r) + i) =
    Some (pretty (S i) ++ ". " ++ py_str (step ins)).
Proof.
  intros Hi Hs Ht Hl Him Hfi Hfs Hk.
  rewrite (markdown_lines r Hi Hs Ht Hl Him Hfi Hfs).
  rewrite lookup_app_r by (simpl; lia).
  rewrite lookup_app_r by (rewrite length_map; simpl; lia).
  rewrite lookup_app_r by (rewrite length_map; simpl; lia).
  rewrite length_map. simpl length.
  replace (14 + length (ingredients r) + i - 11 - length (ingredients r) - 3) with i by lia.
  rewrite lookup_app_l by (rewrite length_imap; apply lookup_lt_Some in Hk; exact Hk).
  rewrite list_lookup_imap, Hk. reflexivity.
Qed.

(** ** Instances of the further properties *)

Lemma parse_all_malformed_calls_witness :
  (forall k, k < 3 -> lm_all_malformed k = LMMalformed) /\
  exists st,
    parse_user_message_with_retries lm_all_malformed 2 init_state =
      ((if (2 <=? 3)%Z then PErr JSONDecodeError else POk None), st) /\
    lm_calls st = Z.to_nat (Z.min 3 (Z.max 1 2)).
Proof.
  assert (H : forall k, k < 3 -> lm_all_malformed k = LMMalformed) by (intros; reflexivity).
  split; [exact H|]. exact (parse_all_malformed_calls lm_all_malformed 2 H).
Defined.

Lemma run_no_recipes_witness :
  parse_user_message_with_retries lm_pasta 3 init_state =
    (POk (Some (JObj pasta_filters)), parse_state lm_pasta) /\
  (forall m, dict_lookup "message" pasta_filters <> Some (JStr m)) /\
  agent_fetch_args (Some (JObj pasta_filters)) = POk pasta_args /\
  provider_empty pasta_args = POk [] /\
  replies (trace (snd (run lm_pasta provider_empty title_formatter init_state))) =
    [PREPARING; NO_RECIPES] /\
  fetch_calls (trace (snd (run lm_pasta provider_empty title_formatter init_state))) = 1.
Proof.
  assert (Hm : forall m, dict_lookup "message" pasta_filters <> Some (JStr m))
    by (intros m; discriminate).
  split; [reflexivity|]. split; [exact Hm|]. split; [reflexivity|]. split; [reflexivity|].
  exact (run_no_recipes lm_pasta provider_empty title_formatter pasta_filters
           (parse_state lm_pasta) pasta_args eq_refl Hm eq_refl eq_refl).
Defined.

Lemma run_parse_failure_witness :
  parse_user_message_with_retries lm_all_malformed 3 init_state =
    (PErr JSONDecodeError, parse_state lm_all_malformed) /\
  replies (trace (snd (run lm_all_malformed provider_ok title_formatter init_state))) =
    [error_reply JSONDecodeError] /\
  fetch_calls (trace (snd (run lm_all_malformed provider_ok title_formatter init_state))) = 0 /\
  lm_calls (snd (run lm_all_malformed provider_ok title_formatter init_state)) =
    lm_calls (parse_state lm_all_malformed).
Proof.
  split; [reflexivity|].
  exact (run_parse_failure lm_all_malformed provider_ok title_formatter JSONDecodeError
           (parse_state lm_all_malformed) eq_refl).
Defined.

Lemma run_parsed_not_dict_witness :
  parse_user_message_with_retries lm_list 3 init_state =
    (POk (Some (JArr [JStr "pasta"])), parse_state lm_list) /\
  (forall kvs, Some (JArr [JStr "pasta"]) <> Some (JObj kvs)) /\
  replies (trace (snd (run lm_list provider_ok title_formatter init_state))) =
    [UNEXPECTED_ERROR_REPLY] /\
  fetch_calls (trace (snd (run lm_list provider_ok title_formatter init_state))) = 0.
Proof.
  assert (Hn : forall kvs, Some (JArr [JStr "pasta"]) <> Some (JObj kvs))
    by (intros kvs; discriminate).
  split; [reflexivity|]. split; [exact Hn|].
  exact (run_parsed_not_dict lm_list provider_ok title_formatter (Some (JArr [JStr "pasta"]))
           (parse_state lm_list) eq_refl Hn).
Defined.

Lemma fetch_params_fixed_fields_witness :
  fetch_params "KEY" args_pasta = POk params_pasta /\
  dict_lookup "query" params_pasta = Some (query args_pasta) /\
  dict_lookup "number" params_pasta = Some (JNum (max_amount args_pasta)) /\
  dict_lookup "apiKey" params_pasta = Some (JStr "KEY") /\
  dict_lookup "instructionsRequired" params_pasta = Some (JStr "true") /\
  dict_lookup "addRecipeInformation" params_pasta = Some (JStr "true") /\
  dict_lookup "addRecipeNutrition" params_pasta = Some (JStr "false") /\
  dict_lookup "fillIngredients" params_pasta = Some (JStr "true") /\
  dict_lookup "ignorePantry" params_pasta = Some (JStr "true") /\
  dict_lookup "sort" params_pasta = Some (JStr "calories") /\
  dict_lookup "sortDirection" params_pasta = Some (JStr "desc").
Proof.
  split; [reflexivity|]. exact (fetch_params_fixed_fields "KEY" args_pasta params_pasta eq_refl).
Defined.

Lemma fetch_recipes_bad_filter_witness :
  bad_filter (include_cuisines args_null_cuisine) /\
  fetch_recipes http_ok "KEY" args_null_cuisine = PErr TypeError.
Proof.
  assert (H : bad_filter (include_cuisines args_null_cuisine)) by (left; reflexivity).
  split; [exact H|]. apply (fetch_recipes_bad_filter http_ok "KEY" args_null_cuisine).
  left. exact H.
Defined.

Lemma fetch_params_string_filter_witness :
  fetch_params "KEY" args_string_ingredients = POk params_string_ingredients /\
  include_ingredients args_string_ingredients = JStr "egg" /\
  dict_lookup "includeIngredients" params_string_ingredients = Some (JStr "e,g,g").
Proof.
  split; [reflexivity|]. split; [reflexivity|].
  destruct (fetch_params_string_filter "KEY" args_string_ingredients params_string_ingredients
              eq_refl) as (_ & _ & H & _).
  exact (H "egg" eq_refl).
Defined.

Lemma handle_response_no_results_witness :
  dict_lookup "results" [("totalResults", JNum 0)] = None /\
  handle_response (mkResponse 200 (Some (JObj [("totalResults", JNum 0)]))) = POk [].
Proof.
  split; [reflexivity|]. exact (handle_response_no_results [("totalResults", JNum 0)] eq_refl).
Defined.

Lemma handle_response_scalar_results_witness :
  dict_lookup "results" [("results", JNull)] = Some JNull /\
  handle_response (mkResponse 200 (Some (JObj [("results", JNull)]))) = PErr TypeError.
Proof.
  split; [reflexivity|].
  exact (handle_response_scalar_results [("results", JNull)] JNull eq_refl (or_introl eq_refl)).
Defined.

Lemma handle_response_non_object_witness :
  (forall kvs, Some (JArr []) <> Some (JObj kvs)) /\
  handle_response (mkResponse 200 (Some (JArr []))) = PErr AttributeError.
Proof.
  assert (H : forall kvs, Some (JArr []) <> Some (JObj kvs)) by (intros kvs; discriminate).
  split; [exact H|]. exact (handle_response_non_object 200 (Some (JArr [])) H).
Defined.

Lemma main_not_user_witness :
  dict_lookup "role" assistant_message = Some (JStr "assistant") /\
  main http_ok lm_pasta (Some (JObj assistant_message)) (Some "KEY") = POk RequestUserInput.
Proof.
  split; [reflexivity|]. apply main_not_user. right.
  exists assistant_message, (JStr "assistant").
  split; [reflexivity|split; [reflexivity|discriminate]].
Defined.

Lemma main_missing_role_witness :
  dict_lookup "role" roleless_message = None /\
  main http_ok lm_pasta (Some (JObj roleless_message)) (Some "KEY") = PErr KeyError.
Proof.
  split; [reflexivity|]. exact (main_missing_role http_ok lm_pasta (Some "KEY") roleless_message eq_refl).
Defined.

Lemma main_missing_api_key_witness :
  dict_lookup "role" user_message = Some (JStr "user") /\
  main http_ok lm_pasta (Some (JObj user_message)) None =
    POk (ConfigError ENV_MISSING_LOG ENV_MISSING_REPLY).
Proof.
  split; [reflexivity|]. exact (main_missing_api_key http_ok lm_pasta user_message eq_refl).
Defined.

Lemma main_runs_agent_witness :
  dict_lookup "role" user_message = Some (JStr "user") /\
  exists st, main http_ok lm_pasta (Some (JObj user_message)) (Some "KEY") = POk (AgentRan st) /\
    replies (trace st) <> [] /\ lm_calls st <= 3 /\ fetch_calls (trace st) <= 1.
Proof.
  split; [reflexivity|]. exact (main_runs_agent http_ok lm_pasta user_message "KEY" eq_refl).
Defined.

Lemma markdown_layout_witness :
  split_lines (markdown_transform_to_text pancake_recipe) =
    app [EmptyString; "### " ++ py_str (title pancake_recipe); EmptyString;
         "Likes: " ++ py_str (likes pancake_recipe); EmptyString;
         "![Recipe Image](" ++ py_str (image pancake_recipe) ++ ")"; EmptyString;
         "##### Ingredients"; EmptyString; "| Ingredient | Image |"; "|------------|-------|"]
      (app (map md_ingredient_row (ingredients pancake_recipe))
        (app [EmptyString; EmptyString; "##### Steps"]
          (app (imap md_step_line (instructions pancake_recipe)) [EmptyString]))).
Proof.
  apply markdown_layout; try discriminate; try nn_closed; repeat constructor; nn_closed.
Defined.

Lemma markdown_step_numbering_witness :
  split_lines (markdown_transform_to_text pancake_recipe) !! 17 =
    Some "2. Fry until golden.".
Proof.
  apply (markdown_step_numbering pancake_recipe 1 (mkInstruction (JStr "Fry until golden.")));
    try discriminate; try nn_closed; try reflexivity; repeat constructor; nn_closed.
Defined.
